(** * DevConnector REST API: a shallow embedding of the route handlers

    The development follows the two router files of the back end,
    [routes/api/posts.js] and the profile router (GET/POST/DELETE
    [api/profile], experience, education, github).

    Modelling conventions.
    - A JavaScript string is a [string]; an ObjectId is the string that
      [toString()] prints for it.  [req.user.id] is the id string that the
      auth middleware extracted from the bearer token.
    - The three collections are held in [Db].  Posts and users are looked
      up by [_id] only, so they are finite maps keyed by the id; profiles
      are searched by a filter ([findOne({ user })]), so the collection is
      a list in natural order and every document carries its [_id].
    - A handler is a computation in the monad [M]: it threads the [World]
      (database, the response delivered so far, the outbound HTTP calls) and
      may throw.  [try { .. } catch (err) { .. }] is [try_catch].
    - Express delivers one response per request; a second [res.json] or
      [res.send] throws (headers already sent).
    - Every database call is assumed to reach the database: the only store
      failures are the ones Mongoose raises itself (cast and schema
      validation errors). *)

From Stdlib Require Import String Ascii List NArith Bool Lia.
From stdpp Require Import gmap strings list fin_maps.

Set Default Proof Using "Type".

(** ** Documents *)

Abbreviation ObjectId := string (only parsing).

Record Like := mkLike { l_id : ObjectId; l_user : ObjectId }.

Record Comment := mkComment {
  c_id : ObjectId;
  c_user : ObjectId;
  c_text : option string;
  c_name : string;
  c_avatar : string;
  c_date : nat
}.

Record Post := mkPost {
  p_user : ObjectId;
  p_text : option string;
  p_name : string;
  p_avatar : string;
  p_likes : list Like;
  p_comments : list Comment;
  p_date : nat
}.

Record User := mkUser {
  u_name : string;
  u_email : string;
  u_password : string;
  u_avatar : string
}.

Record Experience := mkExperience {
  x_id : ObjectId;
  x_title : option string;
  x_company : option string;
  x_location : option string;
  x_from : option string;
  x_to : option string;
  x_current : option bool;
  x_description : option string
}.

Record Education := mkEducation {
  e_id : ObjectId;
  e_school : option string;
  e_degree : option string;
  e_fieldofstudy : option string;
  e_from : option string;
  e_to : option string;
  e_current : option bool;
  e_description : option string
}.

Record Social := mkSocial {
  youtube : option string;
  twitter : option string;
  facebook : option string;
  instagram : option string;
  linkedin : option string
}.

(** A JavaScript string as its sequence of UTF-16 code units; used where
    the code inspects characters ([split], [trim], [encodeURI]). *)
Abbreviation jsstring := (list N) (only parsing).

Record Profile := mkProfile {
  pr_id : ObjectId;
  pr_user : ObjectId;
  pr_company : option string;
  pr_website : string;
  pr_location : option string;
  pr_status : option string;
  pr_skills : list jsstring;
  pr_bio : option string;
  pr_githubusername : option string;
  pr_experience : list Experience;
  pr_education : list Education;
  pr_social : Social;
  pr_date : nat
}.

Record Db := mkDb {
  users : gmap string User;
  profiles : list Profile;
  posts : gmap string Post
}.

(** ** Responses *)

Inductive Body :=
| BErrors (errors : list string)
| BMsg (msg : string)
| BText (text : string)
| BPost (post : Post)
| BPosts (all : list Post)
| BLikes (likes : list Like)
| BComments (comments : list Comment)
| BProfile (profile : Profile)
| BPopulated (profile : Profile) (user : option (string * string))
| BProfiles (all : list Profile)
| BRepos (data : string).

Record Response := mkResponse { status : nat; body : Body }.

(** [res.status(n).json(b)] and [res.status(n).send(text)] *)
Definition json (n : nat) (b : Body) : Response := mkResponse n b.
Definition send (n : nat) (text : string) : Response := mkResponse n (BText text).

(** ** The handler monad *)

(** Why the upstream repository host did not answer with a 2xx. *)
Inductive UpstreamFailure :=
| NetworkError
| RateLimited
| UnknownUser
| HttpStatus (code : nat).

Inductive Exc :=
| CastError        (* Mongoose CastError, [err.kind === 'ObjectId'] *)
| TypeError        (* property access on null or undefined *)
| SchemaError      (* Mongoose ValidationError raised by [save] *)
| HeadersSent      (* a second response on the same request *)
| InvalidUrl       (* normalize-url rejected its argument *)
| URIError         (* encodeURI met an unpaired surrogate *)
| ConfigError      (* config.get on an undefined key *)
| UpstreamError (f : UpstreamFailure).   (* axios rejected *)

Record HttpGet := mkHttpGet { uri : jsstring; headers : list (string * string) }.

(** The calls a handler makes on the Mongoose models, in program order. *)
Inductive Query :=
| QPostFindById (raw : string)
| QPostSave (id : ObjectId)
| QPostRemove (id : ObjectId)
| QPostDeleteMany (user : ObjectId)
| QUserFindById (id : ObjectId)
| QUserFindOneAndRemove (id : ObjectId)
| QProfileFindOne (user : string)
| QProfileSave (id : ObjectId)
| QProfileFindOneAndRemove (user : ObjectId)
| QProfileFindOneAndUpdate (user : ObjectId).

Record World := mkWorld {
  db : Db;
  sent : option Response;
  outbound : list HttpGet;
  queries : list Query
}.

Definition M (A : Type) : Type := World -> World * (Exc + A).

Definition ret {A} (a : A) : M A := fun w => (w, inr a).
Definition throw {A} (e : Exc) : M A := fun w => (w, inl e).
Definition bind {A B} (m : M A) (k : A -> M B) : M B :=
  fun w => match m w with
           | (w', inr a) => k a w'
           | (w', inl e) => (w', inl e)
           end.
Definition try_catch {A} (m : M A) (handler : Exc -> M A) : M A :=
  fun w => match m w with
           | (w', inr a) => (w', inr a)
           | (w', inl e) => handler e w'
           end.

Declare Scope handler_scope.
Delimit Scope handler_scope with handler.
Notation "x <- m ;; k" := (bind m (fun x => k))
  (at level 100, m at next level, right associativity) : handler_scope.
Notation "m ;;; k" := (bind m (fun _ => k))
  (at level 100, right associativity) : handler_scope.
Open Scope handler_scope.

Definition get_db : M Db := fun w => (w, inr (db w)).
Definition put_db (d : Db) : M unit :=
  fun w => (mkWorld d (sent w) (outbound w) (queries w), inr tt).
Definition issue (q : Query) : M unit :=
  fun w => (mkWorld (db w) (sent w) (outbound w) (queries w ++ [q]), inr tt).

(** [res.status(..).json(..)] / [res.status(..).send(..)] *)
Definition reply (r : Response) : M unit :=
  fun w => match sent w with
           | None => (mkWorld (db w) (Some r) (outbound w) (queries w), inr tt)
           | Some _ => (w, inl HeadersSent)
           end.

(** [err.kind === 'ObjectId'] *)
Definition kind_ObjectId (e : Exc) : bool :=
  match e with CastError => true | _ => false end.

(** Running a handler on a request: a fresh response object. *)
Definition run (h : M unit) (d : Db) : World * (Exc + unit) := h (mkWorld d None [] []).
Definition db_after (h : M unit) (d : Db) : Db := db (fst (run h d)).
Definition response (h : M unit) (d : Db) : option Response := sent (fst (run h d)).
Definition requests (h : M unit) (d : Db) : list HttpGet := outbound (fst (run h d)).
Definition trace (h : M unit) (d : Db) : list Query := queries (fst (run h d)).
Definition escaped (h : M unit) (d : Db) : option Exc :=
  match snd (run h d) with inl e => Some e | inr _ => None end.

(** ** The error taxonomy, read off a response *)

Inductive Outcome :=
| Success | ValidationError | NotFound | Forbidden | Conflict | UnexpectedError | Other.

Definition outcome (r : Response) : Outcome :=
  match status r, body r with
  | 200, _ => Success
  | 400, BErrors _ => ValidationError
  | 400, BMsg m =>
      if String.eqb m "Post is already liked" || String.eqb m "Post has not yet been liked"
      then Conflict else NotFound
  | 404, _ => NotFound
  | 401, _ => Forbidden
  | 500, _ => UnexpectedError
  | _, _ => Other
  end.

(** ** JavaScript strings as code units *)

(** The code units of an ASCII literal. *)
Definition lit (s : string) : jsstring :=
  List.map N_of_ascii (list_ascii_of_string s).

(** ECMAScript WhiteSpace and LineTerminator code points, the characters
    [String.prototype.trim] strips. *)
Definition isWhiteSpace (c : N) : bool :=
  ((9 <=? c) && (c <=? 13) || (c =? 32) || (c =? 160) || (c =? 5760)
   || (8192 <=? c) && (c <=? 8202) || (c =? 8232) || (c =? 8233)
   || (c =? 8239) || (c =? 8287) || (c =? 12288) || (c =? 65279))%N.

Fixpoint trimStart (s : jsstring) : jsstring :=
  match s with
  | c :: s' => if isWhiteSpace c then trimStart s' else s
  | [] => []
  end.

Definition trimEnd (s : jsstring) : jsstring := rev (trimStart (rev s)).

(** [s.trim()] *)
Definition trim (s : jsstring) : jsstring := trimEnd (trimStart s).

(** [s.split(sep)] for a separator of one code unit: always at least one
    piece. *)
Fixpoint split (sep : N) (s : jsstring) : list jsstring :=
  match s with
  | [] => [[]]
  | c :: s' =>
      if (c =? sep)%N then [] :: split sep s'
      else match split sep s' with
           | w :: ws => (c :: w) :: ws
           | [] => [[c]]
           end
  end.

Definition comma : N := 44.

(** *** encodeURI

    ECMAScript [Encode] with the unescaped set of [encodeURI]: letters,
    digits, the marks [-_.!~*'()], the reserved characters [;/?:@&=+$,]
    and [#].  Every other code point is written as the percent-escaped
    octets of its UTF-8 encoding; an unpaired surrogate is a URIError
    ([None]). *)

Definition uriUnescaped (c : N) : bool :=
  ((65 <=? c) && (c <=? 90) || (97 <=? c) && (c <=? 122) || (48 <=? c) && (c <=? 57)
   || existsb (N.eqb c) (lit "-_.!~*'()") || existsb (N.eqb c) (lit ";/?:@&=+$,")
   || (c =? 35))%N.

Definition isHighSurrogate (c : N) : bool := ((55296 <=? c) && (c <=? 56319))%N.
Definition isLowSurrogate (c : N) : bool := ((56320 <=? c) && (c <=? 57343))%N.

Definition utf8 (cp : N) : list N :=
  (if cp <? 128 then [cp]
   else if cp <? 2048 then [192 + cp / 64; 128 + cp mod 64]
   else if cp <? 65536 then [224 + cp / 4096; 128 + (cp / 64) mod 64; 128 + cp mod 64]
   else [240 + cp / 262144; 128 + (cp / 4096) mod 64; 128 + (cp / 64) mod 64;
         128 + cp mod 64])%N.

Definition hexDigit (d : N) : N := (if d <? 10 then 48 + d else 55 + d)%N.

Definition percent (octets : list N) : jsstring :=
  List.concat (List.map (fun o => [37; hexDigit (o / 16); hexDigit (o mod 16)])%N octets).

Fixpoint encodeURI (s : jsstring) : option jsstring :=
  match s with
  | [] => Some []
  | c :: s' =>
      if uriUnescaped c then cons c <$> encodeURI s'
      else if isHighSurrogate c then
        match s' with
        | d :: s'' =>
            if isLowSurrogate d
            then app (percent (utf8 ((c - 55296) * 1024 + (d - 56320) + 65536)%N))
                   <$> encodeURI s''
            else None
        | [] => None
        end
      else if isLowSurrogate c then None
      else app (percent (utf8 c)) <$> encodeURI s'
  end.

(** ** express-validator *)

(** [body(field).not().isEmpty()]: the field is present and is not the
    empty string. *)
Definition not_isEmpty (v : option string) : bool :=
  match v with
  | Some s => negb (String.eqb s "")
  | None => false
  end.

(** [validationResult(req).array()]: the messages of the failed checks,
    each check given as its verdict and its message. *)
Definition validationResult (checks : list (bool * string)) : list string :=
  List.map snd (List.filter (fun c => negb (fst c)) checks).

(** [errors.isEmpty()] *)
Definition isEmpty {A} (l : list A) : bool :=
  match l with [] => true | _ => false end.

(** ** Mongoose models *)

Section Models.

(** Mongoose's cast of a route parameter to an ObjectId: [None] when the
    string is not a valid id (the query then rejects with a CastError of
    kind ['ObjectId']), otherwise the id it denotes.  The caller's id
    [req.user.id] was issued by the server for an existing user document
    and always casts to itself. *)
Variable castObjectId : string -> option ObjectId.

Definition set_posts (f : gmap string Post -> gmap string Post) : M unit :=
  d <- get_db ;; put_db (mkDb (users d) (profiles d) (f (posts d))).
Definition set_profiles (f : list Profile -> list Profile) : M unit :=
  d <- get_db ;; put_db (mkDb (users d) (f (profiles d)) (posts d)).
Definition set_users (f : gmap string User -> gmap string User) : M unit :=
  d <- get_db ;; put_db (mkDb (f (users d)) (profiles d) (posts d)).

(** A loaded Post document: its [_id] and its fields. *)
Definition PostDoc : Type := ObjectId * Post.

(** [Post.findById(req.params.postId)] *)
Definition Post_findById (raw : string) : M (option PostDoc) :=
  issue (QPostFindById raw) ;;;
  match castObjectId raw with
  | None => throw CastError
  | Some id => d <- get_db ;; ret (pair id <$> posts d !! id)
  end.

(** [post.save()] *)
Definition Post_save (doc : PostDoc) : M unit :=
  issue (QPostSave (fst doc)) ;;;
  set_posts (fun ps => <[fst doc := snd doc]> ps).

(** [post.remove()] *)
Definition Post_remove (doc : PostDoc) : M unit :=
  issue (QPostRemove (fst doc)) ;;;
  set_posts (fun ps => delete (fst doc) ps).

(** [Post.deleteMany({ user })] *)
Definition Post_deleteMany (user : ObjectId) : M unit :=
  issue (QPostDeleteMany user) ;;;
  set_posts (fun ps => filter (fun kv => p_user (snd kv) <> user) ps).

(** [User.findById(req.user.id).select('-password')] *)
Definition User_findById (id : ObjectId) : M (option User) :=
  issue (QUserFindById id) ;;;
  d <- get_db ;; ret (users d !! id).

(** [User.findOneAndRemove({ _id })] *)
Definition User_findOneAndRemove (id : ObjectId) : M unit :=
  issue (QUserFindOneAndRemove id) ;;;
  set_users (fun us => delete id us).

(** Dereferencing a query result that may be [null]. *)
Definition deref {A} (o : option A) : M A :=
  match o with
  | Some a => ret a
  | None => throw TypeError
  end.

Definition with_likes (p : Post) (l : list Like) : Post :=
  mkPost (p_user p) (p_text p) (p_name p) (p_avatar p) l (p_comments p) (p_date p).
Definition with_comments (p : Post) (c : list Comment) : Post :=
  mkPost (p_user p) (p_text p) (p_name p) (p_avatar p) (p_likes p) c (p_date p).

(** ** routes/api/posts.js *)

Definition server_error : M unit := reply (send 500 "Server Error").

(** The [catch] block shared by the routes that look a post up by id. *)
Definition catch_post (err : Exc) : M unit :=
  if kind_ObjectId err
  then reply (json 404 (BMsg "Post not found"))
  else server_error.

(** POST api/posts.  [caller] is [req.user.id], [text] is
    [req.body.text], [fresh] the [_id] of the new document and [now] its
    default [date]. *)
Definition createPost (caller : ObjectId) (text : option string)
    (fresh : ObjectId) (now : nat) : M unit :=
  let errors := validationResult [(not_isEmpty text, "Text is required")] in
  if negb (isEmpty errors) then reply (json 400 (BErrors errors))
  else
    try_catch
      (user <- User_findById caller ;;
       user <- deref user ;;
       let newPost := mkPost caller text (u_name user) (u_avatar user) [] [] now in
       Post_save (fresh, newPost) ;;;
       reply (json 200 (BPost newPost)))
      (fun _ => server_error).

(** GET api/posts/:postId *)
Definition getPost (postId : string) : M unit :=
  try_catch
    (post <- Post_findById postId ;;
     match post with
     | None => reply (json 404 (BMsg "Post not found"))
     | Some post => reply (json 200 (BPost (snd post)))
     end)
    catch_post.

(** DELETE api/posts/:postId *)
Definition deletePost (caller : ObjectId) (postId : string) : M unit :=
  try_catch
    (post <- Post_findById postId ;;
     match post with
     | None => reply (json 404 (BMsg "Post not found"))
     | Some post =>
         if negb (String.eqb (p_user (snd post)) caller)
         then reply (json 401 (BMsg "User is not authorized"))
         else
           Post_remove post ;;;
           reply (json 200 (BMsg "Post is removed"))
     end)
    catch_post.

(** PUT api/posts/like/:postId.  [fresh] is the [_id] Mongoose gives
    the new like subdocument. *)
Definition likePost (caller : ObjectId) (postId : string) (fresh : ObjectId) : M unit :=
  try_catch
    (post <- Post_findById postId ;;
     match post with
     | None => reply (json 404 (BMsg "Post not found"))
     | Some (id, post) =>
         if List.existsb (fun l => String.eqb (l_user l) caller) (p_likes post)
         then reply (json 400 (BMsg "Post is already liked"))
         else
           let post := with_likes post (mkLike fresh caller :: p_likes post) in
           Post_save (id, post) ;;;
           reply (json 200 (BLikes (p_likes post)))
     end)
    catch_post.

(** PUT api/posts/unlike/:postId *)
Definition unlikePost (caller : ObjectId) (postId : string) : M unit :=
  try_catch
    (post <- Post_findById postId ;;
     match post with
     | None => reply (json 404 (BMsg "Post not found"))
     | Some (id, post) =>
         if negb (List.existsb (fun l => String.eqb (l_user l) caller) (p_likes post))
         then reply (json 400 (BMsg "Post has not yet been liked"))
         else
           let post :=
             with_likes post
               (List.filter (fun l => negb (String.eqb (l_user l) caller)) (p_likes post)) in
           Post_save (id, post) ;;;
           reply (json 200 (BLikes (p_likes post)))
     end)
    catch_post.

(** POST api/posts/comment/:postId *)
Definition addComment (caller : ObjectId) (postId : string) (text : option string)
    (fresh : ObjectId) (now : nat) : M unit :=
  let errors := validationResult [(not_isEmpty text, "Text is required")] in
  if negb (isEmpty errors) then reply (json 400 (BErrors errors))
  else
    try_catch
      (user <- User_findById caller ;;
       post <- Post_findById postId ;;
       user <- deref user ;;
       let newComment := mkComment fresh caller text (u_name user) (u_avatar user) now in
       post <- deref post ;;
       let post := (fst post, with_comments (snd post) (newComment :: p_comments (snd post))) in
       Post_save post ;;;
       reply (json 200 (BComments (p_comments (snd post)))))
      (fun _ => server_error).

(** DELETE api/posts/comment/:postId/:commentId *)
Definition deleteComment (caller : ObjectId) (postId commentId : string) : M unit :=
  try_catch
    (post <- Post_findById postId ;;
     post <- deref post ;;
     let comment := List.find (fun c => String.eqb (c_id c) commentId) (p_comments (snd post)) in
     match comment with
     | None => reply (json 404 (BMsg "Comment does not exist"))
     | Some comment =>
         if negb (String.eqb (c_user comment) caller)
         then reply (json 401 (BMsg "User is not authorized"))
         else
           let post :=
             (fst post,
              with_comments (snd post)
                (List.filter (fun c => negb (String.eqb (c_id c) commentId))
                   (p_comments (snd post)))) in
           Post_save post ;;;
           reply (json 200 (BComments (p_comments (snd post))))
     end)
    (fun _ => server_error).

End Models.

(** ** The profile router *)

(** [req.body] of PUT api/profile/experience *)
Record ExperienceBody := mkExperienceBody {
  xb_title : option string;
  xb_company : option string;
  xb_location : option string;
  xb_from : option string;
  xb_to : option string;
  xb_current : option bool;
  xb_description : option string
}.

(** [req.body] of PUT api/profile/education *)
Record EducationBody := mkEducationBody {
  eb_school : option string;
  eb_degree : option string;
  eb_fieldofstudy : option string;
  eb_from : option string;
  eb_to : option string;
  eb_current : option bool;
  eb_description : option string
}.

(** [req.body.skills]: a string or an array of strings *)
Inductive SkillsInput :=
| SkillsString (s : jsstring)
| SkillsArray (l : list jsstring).

(** [req.body] of POST api/profile; the five fields after [skills] are
    the ones collected by [...rest]. *)
Record ProfileBody := mkProfileBody {
  pb_website : option string;
  pb_skills : option SkillsInput;
  pb_youtube : option string;
  pb_facebook : option string;
  pb_twitter : option string;
  pb_instagram : option string;
  pb_linkedin : option string;
  pb_status : option string;
  pb_company : option string;
  pb_location : option string;
  pb_bio : option string;
  pb_githubusername : option string
}.

Definition with_experience (p : Profile) (l : list Experience) : Profile :=
  mkProfile (pr_id p) (pr_user p) (pr_company p) (pr_website p) (pr_location p)
    (pr_status p) (pr_skills p) (pr_bio p) (pr_githubusername p) l
    (pr_education p) (pr_social p) (pr_date p).

Definition with_education (p : Profile) (l : list Education) : Profile :=
  mkProfile (pr_id p) (pr_user p) (pr_company p) (pr_website p) (pr_location p)
    (pr_status p) (pr_skills p) (pr_bio p) (pr_githubusername p)
    (pr_experience p) l (pr_social p) (pr_date p).

(** [updateOne({ _id: doc._id }, ..)]: the first document with that id. *)
Fixpoint replace_doc (p : Profile) (ps : list Profile) : list Profile :=
  match ps with
  | [] => []
  | q :: ps' =>
      if String.eqb (pr_id q) (pr_id p) then p :: ps' else q :: replace_doc p ps'
  end.

(** Removal of the first document matching a filter. *)
Fixpoint remove_first (f : Profile -> bool) (ps : list Profile) : list Profile :=
  match ps with
  | [] => []
  | q :: ps' => if f q then ps' else q :: remove_first f ps'
  end.

(** The [skills] entry of [profileFields]:
    [Array.isArray(skills) ? skills : skills.split(',').map((skill) => skill.trim())] *)
Definition normalizeSkills (skills : SkillsInput) : list jsstring :=
  match skills with
  | SkillsArray l => l
  | SkillsString s => List.map trim (split comma s)
  end.

Section ProfileRouter.

Variable castObjectId : string -> option ObjectId.

(** The Profile schema's verdict on a new experience or education
    subdocument ([required] paths, date casts); the model file is not
    part of the router. *)
Variable expSchemaOk : Experience -> bool.
Variable eduSchemaOk : Education -> bool.

(** [normalize(url, { forceHttps: true })] of the normalize-url package;
    [None] when it throws on a string that is not a URL. *)
Variable normalize : string -> option string.

(** express-validator's verdict of [not().isEmpty()] on an array value. *)
Variable notEmptyArray : list jsstring -> bool.

(** [config.get('githubToken')]; [None] when the key is not configured. *)
Variable githubToken : option string.

(** The repository host: the answer to a GET, or why it failed. *)
Variable upstream : HttpGet -> UpstreamFailure + string.

(** [Profile.findOne({ user })] with the caller's id *)
Definition Profile_findOne (user : ObjectId) : M (option Profile) :=
  issue (QProfileFindOne user) ;;;
  d <- get_db ;;
  ret (List.find (fun p => String.eqb (pr_user p) user) (profiles d)).

(** [Profile.findOne({ user: req.params.userId })]: the parameter is
    cast first. *)
Definition Profile_findOne_param (raw : string) : M (option Profile) :=
  issue (QProfileFindOne raw) ;;;
  match castObjectId raw with
  | None => throw CastError
  | Some user =>
      d <- get_db ;;
      ret (List.find (fun p => String.eqb (pr_user p) user) (profiles d))
  end.

(** [.populate('user', ['name', 'avatar'])] *)
Definition populate (p : Profile) : M Body :=
  d <- get_db ;;
  ret (BPopulated p ((fun u => (u_name u, u_avatar u)) <$> users d !! pr_user p)).

(** [profile.save()]; [valid] is the schema's verdict on the
    subdocuments added since the document was loaded. *)
Definition Profile_save (valid : bool) (p : Profile) : M unit :=
  issue (QProfileSave (pr_id p)) ;;;
  if valid then set_profiles (replace_doc p) else throw SchemaError.

(** [Profile.findOneAndRemove({ user })] *)
Definition Profile_findOneAndRemove (user : ObjectId) : M unit :=
  issue (QProfileFindOneAndRemove user) ;;;
  set_profiles (remove_first (fun p => String.eqb (pr_user p) user)).

(** GET api/profile/me *)
Definition getMyProfile (caller : ObjectId) : M unit :=
  try_catch
    (profile <- Profile_findOne caller ;;
     match profile with
     | None => reply (json 400 (BMsg "There is no profile for this user"))
     | Some profile => b <- populate profile ;; reply (json 200 b)
     end)
    (fun _ => server_error).

(** GET api/profile/user/:userId *)
Definition getProfileByUser (userId : string) : M unit :=
  try_catch
    (profile <- Profile_findOne_param userId ;;
     match profile with
     | None => reply (json 400 (BMsg "Profile not found"))
     | Some profile => b <- populate profile ;; reply (json 200 b)
     end)
    (fun err =>
       if kind_ObjectId err
       then reply (json 400 (BMsg "Profile not found"))
       else server_error).

(** DELETE api/profile *)
Definition deleteMyProfile (caller : ObjectId) : M unit :=
  try_catch
    (Post_deleteMany caller ;;;
     Profile_findOneAndRemove caller ;;;
     User_findOneAndRemove caller ;;;
     reply (json 200 (BMsg "User deleted")))
    (fun _ => server_error).

(** PUT api/profile/experience *)
Definition addExperience (caller : ObjectId) (b : ExperienceBody) (fresh : ObjectId)
    : M unit :=
  let errors :=
    validationResult [(not_isEmpty (xb_title b), "Title is required");
                      (not_isEmpty (xb_company b), "Company is required");
                      (not_isEmpty (xb_from b), "From date is required")] in
  if negb (isEmpty errors) then reply (json 400 (BErrors errors))
  else
    let newExp :=
      mkExperience fresh (xb_title b) (xb_company b) (xb_location b) (xb_from b)
        (xb_to b) (xb_current b) (xb_description b) in
    try_catch
      (profile <- Profile_findOne caller ;;
       profile <- deref profile ;;
       let profile := with_experience profile (newExp :: pr_experience profile) in
       Profile_save (expSchemaOk newExp) profile ;;;
       reply (json 200 (BProfile profile)))
      (fun _ => server_error).

(** DELETE api/profile/experience/:expId *)
Definition removeExperience (caller : ObjectId) (expId : string) : M unit :=
  try_catch
    (foundProfile <- Profile_findOne caller ;;
     foundProfile <- deref foundProfile ;;
     let foundProfile :=
       with_experience foundProfile
         (List.filter (fun exp => negb (String.eqb (x_id exp) expId))
            (pr_experience foundProfile)) in
     Profile_save true foundProfile ;;;
     reply (json 200 (BProfile foundProfile)))
    (fun _ => server_error).

(** PUT api/profile/education.  The validation branch answers but does
    not return: the handler goes on. *)
Definition addEducation (caller : ObjectId) (b : EducationBody) (fresh : ObjectId)
    : M unit :=
  let errors :=
    validationResult [(not_isEmpty (eb_school b), "School is required");
                      (not_isEmpty (eb_degree b), "Degree is required");
                      (not_isEmpty (eb_fieldofstudy b), "Field of study is required");
                      (not_isEmpty (eb_from b), "From date is required")] in
  (if negb (isEmpty errors) then reply (json 400 (BErrors errors)) else ret tt) ;;;
  let newEdu :=
    mkEducation fresh (eb_school b) (eb_degree b) (eb_fieldofstudy b) (eb_from b)
      (eb_to b) (eb_current b) (eb_description b) in
  try_catch
    (profile <- Profile_findOne caller ;;
     profile <- deref profile ;;
     let profile := with_education profile (newEdu :: pr_education profile) in
     Profile_save (eduSchemaOk newEdu) profile ;;;
     reply (json 200 (BProfile profile)))
    (fun _ => server_error).

(** DELETE api/profile/education/:eduId *)
Definition removeEducation (caller : ObjectId) (eduId : string) : M unit :=
  try_catch
    (foundProfile <- Profile_findOne caller ;;
     foundProfile <- deref foundProfile ;;
     let foundProfile :=
       with_education foundProfile
         (List.filter (fun edu => negb (String.eqb (e_id edu) eduId))
            (pr_education foundProfile)) in
     Profile_save true foundProfile ;;;
     reply (json 200 (BProfile foundProfile)))
    (fun _ => server_error).

(** [value && value.length > 0 ? normalize(value, ..) : value], the
    test of the social loop and (with [''] for a missing value) of
    [website]. *)
Definition normalizeField (v : option string) : M (option string) :=
  match v with
  | None => ret None
  | Some s =>
      if String.eqb s "" then ret (Some s)
      else match normalize s with
           | Some u => ret (Some u)
           | None => throw InvalidUrl
           end
  end.

(** [body('skills').not().isEmpty()] *)
Definition skills_not_isEmpty (v : option SkillsInput) : bool :=
  match v with
  | None => false
  | Some (SkillsString s) => negb (isEmpty s)
  | Some (SkillsArray l) => notEmptyArray l
  end.

Definition or_else {A} (new old : option A) : option A :=
  match new with Some _ => new | None => old end.

(** [$set: profileFields] on a stored profile: [website], [skills] and
    [social] are always set, the spread fields when the body has them. *)
Definition set_fields (b : ProfileBody) (website : string) (skills : list jsstring)
    (social : Social) (p : Profile) : Profile :=
  mkProfile (pr_id p) (pr_user p) (or_else (pb_company b) (pr_company p)) website
    (or_else (pb_location b) (pr_location p)) (or_else (pb_status b) (pr_status p))
    skills (or_else (pb_bio b) (pr_bio p))
    (or_else (pb_githubusername b) (pr_githubusername p))
    (pr_experience p) (pr_education p) social (pr_date p).

Fixpoint update_first (f : Profile -> bool) (g : Profile -> Profile)
    (ps : list Profile) : list Profile :=
  match ps with
  | [] => []
  | q :: ps' => if f q then g q :: ps' else q :: update_first f g ps'
  end.

(** [Profile.findOneAndUpdate({ user }, { $set }, { new: true, upsert:
    true, setDefaultsOnInsert: true })] *)
Definition Profile_findOneAndUpdate (caller : ObjectId) (b : ProfileBody)
    (website : string) (skills : list jsstring) (social : Social)
    (fresh : ObjectId) (now : nat) : M Profile :=
  issue (QProfileFindOneAndUpdate caller) ;;;
  d <- get_db ;;
  let mine := fun p => String.eqb (pr_user p) caller in
  match List.find mine (profiles d) with
  | Some p =>
      set_profiles (update_first mine (set_fields b website skills social)) ;;;
      ret (set_fields b website skills social p)
  | None =>
      let p :=
        mkProfile fresh caller (pb_company b) website (pb_location b) (pb_status b)
          skills (pb_bio b) (pb_githubusername b) [] [] social now in
      set_profiles (fun ps => ps ++ [p]) ;;;
      ret p
  end.

(** POST api/profile *)
Definition upsertProfile (caller : ObjectId) (b : ProfileBody) (fresh : ObjectId)
    (now : nat) : M unit :=
  let errors :=
    validationResult [(not_isEmpty (pb_status b), "Status is required");
                      (skills_not_isEmpty (pb_skills b), "Skills is required")] in
  if negb (isEmpty errors) then reply (json 400 (BErrors errors))
  else
    website <- normalizeField (pb_website b) ;;
    skills <- deref (pb_skills b) ;;
    let website := default "" website in
    let skills := normalizeSkills skills in
    youtube <- normalizeField (pb_youtube b) ;;
    twitter <- normalizeField (pb_twitter b) ;;
    facebook <- normalizeField (pb_facebook b) ;;
    instagram <- normalizeField (pb_instagram b) ;;
    linkedin <- normalizeField (pb_linkedin b) ;;
    let social := mkSocial youtube twitter facebook instagram linkedin in
    try_catch
      (profile <- Profile_findOneAndUpdate caller b website skills social fresh now ;;
       reply (json 200 (BProfile profile)))
      (fun _ => server_error).

(** [axios.get(uri, { headers })] *)
Definition axios_get (r : HttpGet) : M string :=
  fun w =>
    let w' := mkWorld (db w) (sent w) (outbound w ++ [r]) (queries w) in
    match upstream r with
    | inr data => (w', inr data)
    | inl f => (w', inl (UpstreamError f))
    end.

Definition github_prefix : jsstring := lit "https://api.github.com/users/".
Definition github_query : jsstring := lit "/repos?per_page=5&sort=created:asc".

(** GET api/profile/github/:username *)
Definition getGithubRepos (username : jsstring) : M unit :=
  try_catch
    (uri <- match encodeURI (github_prefix ++ username ++ github_query) with
            | Some u => ret u
            | None => throw URIError
            end ;;
     token <- match githubToken with
              | Some t => ret t
              | None => throw ConfigError
              end ;;
     let headers := [("user-agent", "node.js"); ("Authorization", "token " +:+ token)] in
     githubResponse <- axios_get (mkHttpGet uri headers) ;;
     reply (json 200 (BRepos githubResponse)))
    (fun _ => reply (send 404 "No Github profile is found")).

End ProfileRouter.

(** ** Observing the store *)

(** The post a route parameter refers to, if any: the parameter has to be
    an ObjectId and a post with that id has to be stored. *)
Definition lookup_post (castObjectId : string -> option ObjectId) (d : Db)
    (raw : string) : option PostDoc :=
  match castObjectId raw with
  | Some id => pair id <$> posts d !! id
  | None => None
  end.

(** The ids of the users who like a post. *)
Definition likers (p : Post) : list ObjectId := List.map l_user (p_likes p).

(** The profile of a user: the first one in the collection. *)
Definition profile_of (d : Db) (user : ObjectId) : option Profile :=
  List.find (fun p => String.eqb (pr_user p) user) (profiles d).

(** Replacing the posts of a database. *)
Definition db_with_posts (d : Db) (ps : gmap string Post) : Db :=
  mkDb (users d) (profiles d) ps.

(** The kind of answer a handler gives, in the error taxonomy. *)
Definition outcome_of (h : M unit) (d : Db) : option Outcome :=
  outcome <$> response h d.

(** The comment of a post that a [commentId] parameter refers to. *)
Definition comment_by_id (p : Post) (commentId : string) : option Comment :=
  List.find (fun c => String.eqb (c_id c) commentId) (p_comments p).

(** ** The API as a transition system *)

(** What the routers take from their environment: the packages, the
    configuration and the Profile model. *)
Record Env := mkEnv {
  env_castObjectId : string -> option ObjectId;
  env_expSchemaOk : Experience -> bool;
  env_eduSchemaOk : Education -> bool;
  env_normalize : string -> option string;
  env_notEmptyArray : list jsstring -> bool;
  env_githubToken : option string;
  env_upstream : HttpGet -> UpstreamFailure + string
}.

Inductive Request :=
| CreatePost (caller : ObjectId) (text : option string) (fresh : ObjectId) (now : nat)
| GetPost (postId : string)
| DeletePost (caller : ObjectId) (postId : string)
| LikePost (caller : ObjectId) (postId : string) (fresh : ObjectId)
| UnlikePost (caller : ObjectId) (postId : string)
| AddComment (caller : ObjectId) (postId : string) (text : option string)
    (fresh : ObjectId) (now : nat)
| DeleteComment (caller : ObjectId) (postId commentId : string)
| GetMyProfile (caller : ObjectId)
| UpsertProfile (caller : ObjectId) (b : ProfileBody) (fresh : ObjectId) (now : nat)
| GetProfileByUser (userId : string)
| DeleteMyProfile (caller : ObjectId)
| AddExperience (caller : ObjectId) (b : ExperienceBody) (fresh : ObjectId)
| RemoveExperience (caller : ObjectId) (expId : string)
| AddEducation (caller : ObjectId) (b : EducationBody) (fresh : ObjectId)
| RemoveEducation (caller : ObjectId) (eduId : string)
| GetGithubRepos (username : jsstring).

(** The route table. *)
Definition handle (E : Env) (r : Request) : M unit :=
  match r with
  | CreatePost caller text fresh now => createPost caller text fresh now
  | GetPost postId => getPost (env_castObjectId E) postId
  | DeletePost caller postId => deletePost (env_castObjectId E) caller postId
  | LikePost caller postId fresh => likePost (env_castObjectId E) caller postId fresh
  | UnlikePost caller postId => unlikePost (env_castObjectId E) caller postId
  | AddComment caller postId text fresh now =>
      addComment (env_castObjectId E) caller postId text fresh now
  | DeleteComment caller postId commentId =>
      deleteComment (env_castObjectId E) caller postId commentId
  | GetMyProfile caller => getMyProfile caller
  | UpsertProfile caller b fresh now =>
      upsertProfile (env_normalize E) (env_notEmptyArray E) caller b fresh now
  | GetProfileByUser userId => getProfileByUser (env_castObjectId E) userId
  | DeleteMyProfile caller => deleteMyProfile caller
  | AddExperience caller b fresh => addExperience (env_expSchemaOk E) caller b fresh
  | RemoveExperience caller expId => removeExperience caller expId
  | AddEducation caller b fresh => addEducation (env_eduSchemaOk E) caller b fresh
  | RemoveEducation caller eduId => removeEducation caller eduId
  | GetGithubRepos username =>
      getGithubRepos (env_githubToken E) (env_upstream E) username
  end.

(** The stores the API can produce, starting without posts. *)
Inductive reachable (E : Env) : Db -> Prop :=
| reachable_init d : posts d = ∅ -> reachable E d
| reachable_step d r : reachable E d -> reachable E (db_after (handle E r) d).

(** At most one like per user on every post. *)
Definition likes_unique (d : Db) : Prop :=
  forall id p, posts d !! id = Some p -> List.NoDup (likers p).

(** At most one profile per user, and document ids are unique. *)
Definition one_profile_per_user (d : Db) : Prop :=
  List.NoDup (List.map pr_user (profiles d)).
Definition profile_ids_unique (d : Db) : Prop :=
  List.NoDup (List.map pr_id (profiles d)).

(** The profile without the experience entries whose id is [expId]. *)
Definition without_experience (expId : string) (p : Profile) : Profile :=
  with_experience p
    (List.filter (fun exp => negb (String.eqb (x_id exp) expId)) (pr_experience p)).

(** A body of PUT api/profile/experience that lacks a required field. *)
Definition experience_incomplete (b : ExperienceBody) : Prop :=
  not_isEmpty (xb_title b) = false \/ not_isEmpty (xb_company b) = false \/
  not_isEmpty (xb_from b) = false.


(** The messages of the failed checks of PUT api/profile/education. *)
Definition education_errors (b : EducationBody) : list string :=
  validationResult [(not_isEmpty (eb_school b), "School is required");
                    (not_isEmpty (eb_degree b), "Degree is required");
                    (not_isEmpty (eb_fieldofstudy b), "Field of study is required");
                    (not_isEmpty (eb_from b), "From date is required")].

(** The education entry built from a body. *)
Definition newEdu (b : EducationBody) (fresh : ObjectId) : Education :=
  mkEducation fresh (eb_school b) (eb_degree b) (eb_fieldofstudy b) (eb_from b)
    (eb_to b) (eb_current b) (eb_description b).

(** *** What splitting and trimming mean

    [join sep] is [Array.prototype.join]: the pieces with [sep] between
    them.  [t] is [s] trimmed when [s] is [t] between two runs of white
    space and [t] neither starts nor ends with white space. *)
Fixpoint join (sep : N) (pieces : list jsstring) : jsstring :=
  match pieces with
  | [] => []
  | [w] => w
  | w :: ws => w ++ sep :: join sep ws
  end.

Definition starts_clean (t : jsstring) : Prop :=
  match t with
  | c :: _ => isWhiteSpace c = false
  | [] => True
  end.

Definition ends_clean (t : jsstring) : Prop := starts_clean (rev t).

Definition trimmed_of (s t : jsstring) : Prop :=
  exists l r,
    s = l ++ t ++ r /\ forallb isWhiteSpace l = true /\ forallb isWhiteSpace r = true /\
    starts_clean t /\ ends_clean t.

(** The headers of the upstream call. *)
Definition github_headers (token : string) : list (string * string) :=
  [("user-agent", "node.js"); ("Authorization", "token " +:+ token)].

(** The upstream call for a user name whose encoding is [u]. *)
Definition github_request (u : jsstring) (token : string) : HttpGet :=
  mkHttpGet (github_prefix ++ u ++ github_query) (github_headers token).

(** A computation that leaves the posts collection as it found it. *)
Definition keeps_posts {A} (m : M A) : Prop :=
  forall w, posts (db (fst (m w))) = posts (db w).

(** ** Sample data *)

Module Sample.
(** A cast that accepts the strings of 24 characters. *)
Definition cast (s : string) : option string :=
  if Nat.eqb (String.length s) 24 then Some s else None.

Definition ann : ObjectId := "5f00000000000000000000a1".
Definition bob : ObjectId := "5f00000000000000000000b2".
Definition post1 : ObjectId := "600000000000000000000001".
Definition post2 : ObjectId := "600000000000000000000002".

Definition comment1 : Comment := mkComment "c1" bob (Some "nice") "Bob" "b.png" 2.
Definition hello : Post :=
  mkPost ann (Some "hello") "Ann" "a.png" [mkLike "l0" ann] [comment1] 1.

Definition job : Experience :=
  mkExperience "x1" (Some "Engineer") (Some "Initech") None (Some "2019-01-01") None
    (Some true) None.
Definition ann_profile : Profile :=
  mkProfile "610000000000000000000001" ann None "" None (Some "Developer")
    [lit "js"] None None [job] [] (mkSocial None None None None None) 0.

Definition store : Db :=
  mkDb {[ann := mkUser "Ann" "ann@example.org" "hash" "a.png";
         bob := mkUser "Bob" "bob@example.org" "hash" "b.png"]}
       [ann_profile]
       {[post1 := hello]}.

(** An education entry without a [from] date. *)
Definition no_from : EducationBody :=
  mkEducationBody (Some "MIT") (Some "BSc") (Some "Computer Science") None None None None.
Definition no_from_exp : ExperienceBody :=
  mkExperienceBody (Some "Engineer") (Some "Initech") None None None None None.

(** A profile form with the skills typed as one string. *)
Definition form : ProfileBody :=
  mkProfileBody (Some "example.org") (Some (SkillsString (lit "js, node , react")))
    None None None None None (Some "Developer") None None None (Some "bob").
Definition bob_profile : Profile :=
  mkProfile "610000000000000000000002" bob None "https://example.org" None
    (Some "Developer") [lit "js"; lit "node"; lit "react"] None (Some "bob") [] []
    (mkSocial None None None None None) 9.

(** A store without schema constraints on the embedded entries, a
    URL normalizer that only forces the scheme, and a repository host
    that is rate limiting. *)
Definition env : Env :=
  mkEnv cast (fun _ => true) (fun _ => true) (fun u => Some ("https://" +:+ u))
    (fun l => negb (isEmpty l)) (Some "secret") (fun _ => inl RateLimited).
End Sample.

(** ** The client's action creators (client/src/actions) *)

(** The actions the creators dispatch; [SetAlert] stands for
    [dispatch(setAlert(msg, alertType))]. *)
Inductive Action :=
| USER_LOADED (payload : string)
| AUTH_ERROR
| REGISTER_SUCCESS (payload : string)
| REGISTER_FAIL
| GET_PROFILE (payload : string)
| PROFILE_ERROR (msg : string) (status : nat)
| SetAlert (msg : string) (alertType : string).

(** [err.response.data]: [null], a body without an [errors] field, or a
    body whose [errors] is the array of express-validator, given by the
    [msg] of each element. *)
Inductive ErrorData :=
| DataNull
| DataPlain
| DataErrors (errors : list string).

(** [err.response] *)
Record ErrorResponse := mkErrorResponse {
  er_status : nat;
  er_statusText : string;
  er_data : ErrorData
}.

(** What awaiting [api.get] or [api.post] gives: the data of the
    response, or a rejection whose [err.response] is undefined when no
    response was received. *)
Inductive ApiResult :=
| Resolved (data : string)
| Rejected (response : option ErrorResponse).

(** A run of an action creator: the actions dispatched, in order, and the
    exception that left it, if any. *)
Definition ClientRun : Type := list Action * option Exc.

(** [loadUser], given the outcome of [api.get('/auth')] *)
Definition loadUser (r : ApiResult) : ClientRun :=
  match r with
  | Resolved data => ([USER_LOADED data], None)
  | Rejected _ => ([AUTH_ERROR], None)
  end.

(** [getCurrentProfile], given the outcome of [api.get('/profile/me')] *)
Definition getCurrentProfile (r : ApiResult) : ClientRun :=
  match r with
  | Resolved data => ([GET_PROFILE data], None)
  | Rejected (Some response) =>
      ([PROFILE_ERROR (er_statusText response) (er_status response)], None)
  | Rejected None => ([], Some TypeError)
  end.

(** [register], given the outcome of [api.post('/users', formData)] *)
Definition register (r : ApiResult) : ClientRun :=
  match r with
  | Resolved data => ([REGISTER_SUCCESS data], None)
  | Rejected None => ([], Some TypeError)
  | Rejected (Some response) =>
      match er_data response with
      | DataNull => ([], Some TypeError)
      | DataPlain => ([REGISTER_FAIL], None)
      | DataErrors errors =>
          (List.map (fun msg => SetAlert msg "danger") errors ++ [REGISTER_FAIL], None)
      end
  end.

Definition is_alert (a : Action) : bool :=
  match a with SetAlert _ _ => true | _ => false end.

(** ** Classes of routes and requests *)

(** The routes of routes/api/posts.js. *)
Definition posts_route (r : Request) : bool :=
  match r with
  | CreatePost _ _ _ _ | GetPost _ | DeletePost _ _ | LikePost _ _ _ | UnlikePost _ _
  | AddComment _ _ _ _ _ | DeleteComment _ _ _ => true
  | _ => false
  end.

Definition github_route (r : Request) : bool :=
  match r with GetGithubRepos _ => true | _ => false end.

(** The GET routes. *)
Definition get_route (r : Request) : bool :=
  match r with
  | GetPost _ | GetMyProfile _ | GetProfileByUser _ | GetGithubRepos _ => true
  | _ => false
  end.

(** The status codes each router uses. *)
Definition status_codes (r : Request) : list nat :=
  if posts_route r then [200; 400; 401; 404; 500]
  else if github_route r then [200; 404]
  else [200; 400; 500].

(** A body of PUT api/profile/education with every required field. *)
Definition education_complete (b : EducationBody) : bool :=
  not_isEmpty (eb_school b) && not_isEmpty (eb_degree b) &&
  not_isEmpty (eb_fieldofstudy b) && not_isEmpty (eb_from b).

(** A URL field that normalize-url is not asked about, or accepts. *)
Definition url_ok (normalize : string -> option string) (v : option string) : bool :=
  match v with
  | None => true
  | Some s =>
      String.eqb s "" || match normalize s with Some _ => true | None => false end
  end.

Definition urls_ok (normalize : string -> option string) (b : ProfileBody) : bool :=
  url_ok normalize (pb_website b) && url_ok normalize (pb_youtube b) &&
  url_ok normalize (pb_twitter b) && url_ok normalize (pb_facebook b) &&
  url_ok normalize (pb_instagram b) && url_ok normalize (pb_linkedin b).

(** What [normalizeField] returns when it does not throw. *)
Definition normalizeField_value (normalize : string -> option string)
    (v : option string) : option string :=
  match v with
  | None => None
  | Some s => if String.eqb s "" then Some s else normalize s
  end.

(** The messages of the failed checks of POST api/profile. *)
Definition upsert_errors (notEmptyArray : list jsstring -> bool) (b : ProfileBody)
    : list string :=
  validationResult [(not_isEmpty (pb_status b), "Status is required");
                    (skills_not_isEmpty notEmptyArray (pb_skills b), "Skills is required")].

(** The [$set] that POST api/profile applies to a stored profile, and the
    document it inserts when there is none. *)
Definition upsert_social (normalize : string -> option string) (b : ProfileBody) : Social :=
  mkSocial (normalizeField_value normalize (pb_youtube b))
    (normalizeField_value normalize (pb_twitter b))
    (normalizeField_value normalize (pb_facebook b))
    (normalizeField_value normalize (pb_instagram b))
    (normalizeField_value normalize (pb_linkedin b)).

Definition upsert_skills (b : ProfileBody) : list jsstring :=
  match pb_skills b with
  | Some skills => normalizeSkills skills
  | None => []
  end.

Definition upsert_fields (normalize : string -> option string) (b : ProfileBody)
    : Profile -> Profile :=
  set_fields b (default "" (normalizeField_value normalize (pb_website b)))
    (upsert_skills b) (upsert_social normalize b).

Definition upsert_new (normalize : string -> option string) (caller : ObjectId)
    (b : ProfileBody) (fresh : ObjectId) (now : nat) : Profile :=
  mkProfile fresh caller (pb_company b)
    (default "" (normalizeField_value normalize (pb_website b)))
    (pb_location b) (pb_status b) (upsert_skills b) (pb_bio b) (pb_githubusername b)
    [] [] (upsert_social normalize b) now.

(** The profiles collection is well formed: document ids are unique and
    no user has two profiles. *)
Definition profiles_wf (d : Db) : Prop :=
  profile_ids_unique d /\ one_profile_per_user d.

(** A body of PUT api/profile/experience with every required field, and
    the entry built from a body. *)
Definition experience_complete (b : ExperienceBody) : bool :=
  not_isEmpty (xb_title b) && not_isEmpty (xb_company b) && not_isEmpty (xb_from b).

Definition newExp (b : ExperienceBody) (fresh : ObjectId) : Experience :=
  mkExperience fresh (xb_title b) (xb_company b) (xb_location b) (xb_from b)
    (xb_to b) (xb_current b) (xb_description b).

(** The profile without the education entries whose id is [eduId]. *)
Definition without_education (eduId : string) (p : Profile) : Profile :=
  with_education p
    (List.filter (fun edu => negb (String.eqb (e_id edu) eduId)) (pr_education p)).

(** The requests on which a handler can end on an exception: an
    education entry that fails validation, a profile with a URL that
    normalize-url rejects. *)
Definition regular (E : Env) (r : Request) : bool :=
  match r with
  | AddEducation _ b _ => education_complete b
  | UpsertProfile _ b _ _ => urls_ok (env_normalize E) b
  | _ => true
  end.

(** How a run ended: answered once with one of [codes], the store
    changed only under a 200; or, if [may_throw], thrown before any answer
    and before any write. *)
Definition ends_well (codes : list nat) (may_throw : bool) (h : M unit) (d : Db) : Prop :=
  match snd (run h d), sent (fst (run h d)) with
  | inr _, Some resp =>
      In (status resp) codes /\ (status resp = 200 \/ db (fst (run h d)) = d)
  | inl _, None => may_throw = true /\ db (fst (run h d)) = d
  | _, _ => False
  end.

(** * Properties *)

Ltac unfold_handler :=
  unfold response, db_after, trace, requests, escaped, run, catch_post, server_error,
    Post_findById, Post_save, Post_remove, Post_deleteMany, User_findById,
    User_findOneAndRemove, Profile_findOne, Profile_findOne_param, Profile_save,
    Profile_findOneAndRemove, populate, deref, set_posts, set_profiles, set_users,
    try_catch, bind, ret, throw, issue, get_db, put_db, reply;
  cbn [fst snd db sent outbound queries kind_ObjectId app].

Lemma db_eta d : mkDb (users d) (profiles d) (posts d) = d.
Proof. by destruct d. Qed.

Lemma with_likes_same p : with_likes p (p_likes p) = p.
Proof. by destruct p. Qed.

Lemma with_likes_twice p l l' : with_likes (with_likes p l) l' = with_likes p l'.
Proof. reflexivity. Qed.

Lemma with_comments_same p : with_comments p (p_comments p) = p.
Proof. by destruct p. Qed.

Lemma liked_spec u ls :
  List.existsb (fun l => String.eqb (l_user l) u) ls = true <-> In u (List.map l_user ls).
Proof.
  rewrite existsb_exists, in_map_iff. split.
  - intros (l & Hin & Heq). apply String.eqb_eq in Heq. eauto.
  - intros (l & Heq & Hin). exists l. split; [done|]. by apply String.eqb_eq.
Qed.

Lemma not_liked_spec u ls :
  List.existsb (fun l => String.eqb (l_user l) u) ls = false <-> ~ In u (List.map l_user ls).
Proof.
  rewrite <- liked_spec. destruct (existsb _ ls); split; done.
Qed.

Lemma filter_not_liked u ls :
  ~ In u (List.map l_user ls) ->
  List.filter (fun l => negb (String.eqb (l_user l) u)) ls = ls.
Proof.
  induction ls as [|l ls IH]; [done|]. cbn [List.map In List.filter]. intros Hn.
  destruct (String.eqb_spec (l_user l) u) as [Heq|Hne]; cbn [negb].
  - destruct Hn. by left.
  - f_equal. apply IH. intros Hin. apply Hn. by right.
Qed.

Lemma lookup_post_Some cast d raw id p :
  lookup_post cast d raw = Some (id, p) <-> cast raw = Some id /\ posts d !! id = Some p.
Proof.
  unfold lookup_post. destruct (cast raw) as [i|]; [|by split; [|intros [? _]]].
  destruct (posts d !! i) as [q|] eqn:E; cbn; split.
  - intros [= <- <-]. done.
  - intros [[= <-] Hq]. rewrite E in Hq. by injection Hq as <-.
  - done.
  - intros [[= <-] Hq]. by rewrite E in Hq.
Qed.

Lemma lookup_post_None cast d raw :
  lookup_post cast d raw = None <->
  cast raw = None \/ exists id, cast raw = Some id /\ posts d !! id = None.
Proof.
  unfold lookup_post. destruct (cast raw) as [i|]; [|by split; [left|]].
  destruct (posts d !! i) as [q|] eqn:E; cbn; split.
  - done.
  - intros [|(id & [= <-] & Hq)]; [done|]. by rewrite E in Hq.
  - intros _. right. by exists i.
  - done.
Qed.

(** ** likePost *)

Section LikeFacts.

Variable cast : string -> option ObjectId.
Variables (caller : ObjectId) (postId : string).

Lemma likePost_absent fresh d :
  lookup_post cast d postId = None ->
  run (likePost cast caller postId fresh) d
  = (mkWorld d (Some (json 404 (BMsg "Post not found"))) [] [QPostFindById postId], inr tt).
Proof.
  intros [Hc | (id & Hc & Hp)]%lookup_post_None;
    unfold likePost; unfold_handler; rewrite Hc; cbn; try done.
  by rewrite Hp.
Qed.

Lemma likePost_liked fresh d id p :
  lookup_post cast d postId = Some (id, p) ->
  In caller (likers p) ->
  run (likePost cast caller postId fresh) d
  = (mkWorld d (Some (json 400 (BMsg "Post is already liked"))) [] [QPostFindById postId],
     inr tt).
Proof.
  intros [Hc Hp]%lookup_post_Some Hin%liked_spec.
  unfold likePost; unfold_handler. rewrite Hc; cbn. rewrite Hp; cbn. by rewrite Hin.
Qed.

Lemma likePost_fresh fresh d id p :
  lookup_post cast d postId = Some (id, p) ->
  ~ In caller (likers p) ->
  run (likePost cast caller postId fresh) d
  = (mkWorld
       (db_with_posts d (<[id := with_likes p (mkLike fresh caller :: p_likes p)]> (posts d)))
       (Some (json 200 (BLikes (mkLike fresh caller :: p_likes p)))) []
       [QPostFindById postId; QPostSave id],
     inr tt).
Proof.
  intros [Hc Hp]%lookup_post_Some Hin%not_liked_spec.
  unfold likePost; unfold_handler. rewrite Hc; cbn. rewrite Hp; cbn. by rewrite Hin.
Qed.

Lemma unlikePost_liked d id p :
  lookup_post cast d postId = Some (id, p) ->
  In caller (likers p) ->
  let rest := List.filter (fun l => negb (String.eqb (l_user l) caller)) (p_likes p) in
  run (unlikePost cast caller postId) d
  = (mkWorld (db_with_posts d (<[id := with_likes p rest]> (posts d)))
       (Some (json 200 (BLikes rest))) [] [QPostFindById postId; QPostSave id],
     inr tt).
Proof.
  intros [Hc Hp]%lookup_post_Some Hin%liked_spec.
  unfold unlikePost; unfold_handler. rewrite Hc; cbn. rewrite Hp; cbn. by rewrite Hin.
Qed.

Lemma unlikePost_not_liked d id p :
  lookup_post cast d postId = Some (id, p) ->
  ~ In caller (likers p) ->
  run (unlikePost cast caller postId) d
  = (mkWorld d (Some (json 400 (BMsg "Post has not yet been liked"))) []
       [QPostFindById postId], inr tt).
Proof.
  intros [Hc Hp]%lookup_post_Some Hin%not_liked_spec.
  unfold unlikePost; unfold_handler. rewrite Hc; cbn. rewrite Hp; cbn. by rewrite Hin.
Qed.

Lemma unlikePost_absent d :
  lookup_post cast d postId = None ->
  run (unlikePost cast caller postId) d
  = (mkWorld d (Some (json 404 (BMsg "Post not found"))) [] [QPostFindById postId], inr tt).
Proof.
  intros [Hc | (id & Hc & Hp)]%lookup_post_None;
    unfold unlikePost; unfold_handler; rewrite Hc; cbn; try done.
  by rewrite Hp.
Qed.

End LikeFacts.

(** ** likePost, unlikePost *)

(** C5: likePost answers 404 NotFound when the parameter refers to no
    post, answers 400 Conflict when the caller's id already appears in the
    post's likes (the store is unchanged in both cases), and otherwise
    puts the caller's like in front of the other likes, unchanged, stores
    the post and answers with the new likes. *)
Theorem likePost_contract cast caller postId fresh d :
  let h := likePost cast caller postId fresh in
  (lookup_post cast d postId = None ->
   response h d = Some (json 404 (BMsg "Post not found")) /\
   outcome_of h d = Some NotFound /\ db_after h d = d) /\
  (forall id p, lookup_post cast d postId = Some (id, p) -> In caller (likers p) ->
   response h d = Some (json 400 (BMsg "Post is already liked")) /\
   outcome_of h d = Some Conflict /\ db_after h d = d) /\
  (forall id p, lookup_post cast d postId = Some (id, p) -> ~ In caller (likers p) ->
   let likes := mkLike fresh caller :: p_likes p in
   response h d = Some (json 200 (BLikes likes)) /\
   outcome_of h d = Some Success /\
   db_after h d = db_with_posts d (<[id := with_likes p likes]> (posts d)) /\
   lookup_post cast (db_after h d) postId = Some (id, with_likes p likes)).
Proof.
  cbn zeta. unfold outcome_of, response, db_after. repeat split.
  1-3: by rewrite likePost_absent.
  1-3: by erewrite likePost_liked.
  1-3: by erewrite likePost_fresh.
  erewrite likePost_fresh by done. cbn.
  match goal with Hl : lookup_post _ _ _ = Some _ |- _ =>
    apply lookup_post_Some in Hl as [Hc Hp] end.
  apply lookup_post_Some. split; [done|]. apply lookup_insert_eq.
Qed.

Lemma likePost_contract_witness :
  response (likePost Sample.cast Sample.bob "nope" "l1") Sample.store
  = Some (json 404 (BMsg "Post not found")) /\
  response (likePost Sample.cast Sample.ann Sample.post1 "l1") Sample.store
  = Some (json 400 (BMsg "Post is already liked")) /\
  response (likePost Sample.cast Sample.bob Sample.post1 "l1") Sample.store
  = Some (json 200 (BLikes [mkLike "l1" Sample.bob; mkLike "l0" Sample.ann])).
Proof.
  split; [|split].
  - apply (likePost_contract Sample.cast Sample.bob "nope" "l1" Sample.store).
    reflexivity.
  - apply (likePost_contract Sample.cast Sample.ann Sample.post1 "l1" Sample.store)
      with (id := Sample.post1) (p := Sample.hello).
    + vm_compute. reflexivity.
    + left. reflexivity.
  - apply (likePost_contract Sample.cast Sample.bob Sample.post1 "l1" Sample.store)
      with (id := Sample.post1) (p := Sample.hello).
    + vm_compute. reflexivity.
    + intros [H|[]]. discriminate H.
Defined.

Lemma like_succeeds_not_liked cast caller postId fresh d id p :
  lookup_post cast d postId = Some (id, p) ->
  outcome_of (likePost cast caller postId fresh) d = Some Success ->
  ~ In caller (likers p).
Proof.
  intros Hl Hs Hin. unfold outcome_of, response in Hs.
  erewrite likePost_liked in Hs by done. discriminate Hs.
Qed.

(** C2: on an existing post, once a like by a user has succeeded, a
    second like by the same user answers 400 Conflict and changes nothing,
    and an unlike by that user answers with the likes as they were before
    the like and brings the whole store back to its state before the
    like. *)
Theorem like_twice_conflict_unlike_roundtrip cast caller postId fresh fresh' d id p :
  lookup_post cast d postId = Some (id, p) ->
  outcome_of (likePost cast caller postId fresh) d = Some Success ->
  let d1 := db_after (likePost cast caller postId fresh) d in
  (response (likePost cast caller postId fresh') d1
   = Some (json 400 (BMsg "Post is already liked")) /\
   outcome_of (likePost cast caller postId fresh') d1 = Some Conflict /\
   db_after (likePost cast caller postId fresh') d1 = d1) /\
  (response (unlikePost cast caller postId) d1 = Some (json 200 (BLikes (p_likes p))) /\
   lookup_post cast (db_after (unlikePost cast caller postId) d1) postId = Some (id, p) /\
   db_after (unlikePost cast caller postId) d1 = d).
Proof.
  intros Hl Hs d1.
  pose proof (like_succeeds_not_liked _ _ _ _ _ _ _ Hl Hs) as Hn.
  set (p1 := with_likes p (mkLike fresh caller :: p_likes p)).
  assert (Hd1 : d1 = db_with_posts d (<[id := p1]> (posts d))).
  { unfold d1, db_after. by erewrite likePost_fresh. }
  assert (Hl1 : lookup_post cast d1 postId = Some (id, p1)).
  { apply lookup_post_Some in Hl as [Hc _]. apply lookup_post_Some.
    split; [done|]. rewrite Hd1. apply lookup_insert_eq. }
  assert (Hin : In caller (likers p1)) by (left; reflexivity).
  split.
  - unfold outcome_of, response, db_after.
    by rewrite (likePost_liked cast caller postId fresh' d1 id p1 Hl1 Hin).
  - pose proof (unlikePost_liked cast caller postId d1 id p1 Hl1 Hin) as Hrun.
    cbn zeta in Hrun.
    assert (Hrest : List.filter (fun l => negb (String.eqb (l_user l) caller)) (p_likes p1)
                    = p_likes p).
    { cbn. rewrite String.eqb_refl. cbn. by apply filter_not_liked. }
    rewrite Hrest in Hrun. unfold p1 in Hrun. rewrite with_likes_twice, with_likes_same in Hrun.
    assert (Hback : db_with_posts d1 (<[id := p]> (posts d1)) = d).
    { rewrite Hd1. unfold db_with_posts. cbn. rewrite insert_insert_eq.
      apply lookup_post_Some in Hl as [_ Hp]. rewrite (insert_id _ _ _ Hp). apply db_eta. }
    rewrite Hback in Hrun.
    unfold response, db_after. rewrite Hrun. cbn. done.
Qed.

Lemma like_twice_conflict_unlike_roundtrip_witness :
  let d1 := db_after (likePost Sample.cast Sample.bob Sample.post1 "l1") Sample.store in
  outcome_of (likePost Sample.cast Sample.bob Sample.post1 "l2") d1 = Some Conflict /\
  db_after (unlikePost Sample.cast Sample.bob Sample.post1) d1 = Sample.store.
Proof.
  destruct (like_twice_conflict_unlike_roundtrip Sample.cast Sample.bob Sample.post1
              "l1" "l2" Sample.store Sample.post1 Sample.hello)
    as ((_ & H1 & _) & (_ & _ & H2)).
  - vm_compute. reflexivity.
  - vm_compute. reflexivity.
  - split; [exact H1 | exact H2].
Defined.

(** ** deletePost, deleteComment *)

Lemma deletePost_not_owner cast caller postId d id p :
  lookup_post cast d postId = Some (id, p) ->
  p_user p <> caller ->
  run (deletePost cast caller postId) d
  = (mkWorld d (Some (json 401 (BMsg "User is not authorized"))) [] [QPostFindById postId],
     inr tt).
Proof.
  intros [Hc Hp]%lookup_post_Some Hne%String.eqb_neq.
  unfold deletePost; unfold_handler. rewrite Hc; cbn. rewrite Hp; cbn. by rewrite Hne.
Qed.

Lemma deleteComment_not_owner cast caller postId commentId d id p c :
  lookup_post cast d postId = Some (id, p) ->
  comment_by_id p commentId = Some c ->
  c_user c <> caller ->
  run (deleteComment cast caller postId commentId) d
  = (mkWorld d (Some (json 401 (BMsg "User is not authorized"))) [] [QPostFindById postId],
     inr tt).
Proof.
  intros [Hc Hp]%lookup_post_Some Hfind Hne%String.eqb_neq. unfold comment_by_id in Hfind.
  unfold deleteComment; unfold_handler. rewrite Hc; cbn. rewrite Hp; cbn.
  rewrite Hfind. by rewrite Hne.
Qed.

(** Comment ids are unique within a post, so [commentId] refers to the
    comment that carries it. *)
Lemma comment_by_id_unique p c :
  List.NoDup (List.map c_id (p_comments p)) ->
  In c (p_comments p) ->
  comment_by_id p (c_id c) = Some c.
Proof.
  unfold comment_by_id. induction (p_comments p) as [|c' cs IH]; [done|].
  cbn [List.map In List.find]. intros Hnd Hin.
  apply List.NoDup_cons_iff in Hnd as [Hnotin Hnd].
  destruct Hin as [->|Hin]; [by rewrite String.eqb_refl|].
  destruct (String.eqb_spec (c_id c') (c_id c)) as [Heq|Hne]; [|by apply IH].
  destruct Hnotin. rewrite Heq. by apply in_map.
Qed.

(** C4: a caller who does not own a post cannot delete it, and a caller
    who does not own a comment cannot delete it: the answer is 401
    Forbidden and the store, hence the post and its comments, is
    unchanged. *)
Theorem delete_by_non_owner_forbidden cast caller d :
  (forall postId id p,
      lookup_post cast d postId = Some (id, p) ->
      p_user p <> caller ->
      response (deletePost cast caller postId) d
      = Some (json 401 (BMsg "User is not authorized")) /\
      outcome_of (deletePost cast caller postId) d = Some Forbidden /\
      db_after (deletePost cast caller postId) d = d /\
      lookup_post cast (db_after (deletePost cast caller postId) d) postId = Some (id, p)) /\
  (forall postId commentId id p c,
      lookup_post cast d postId = Some (id, p) ->
      comment_by_id p commentId = Some c ->
      c_user c <> caller ->
      response (deleteComment cast caller postId commentId) d
      = Some (json 401 (BMsg "User is not authorized")) /\
      outcome_of (deleteComment cast caller postId commentId) d = Some Forbidden /\
      db_after (deleteComment cast caller postId commentId) d = d /\
      lookup_post cast (db_after (deleteComment cast caller postId commentId) d) postId
      = Some (id, p)).
Proof.
  split.
  - intros postId id p Hl Hne. unfold outcome_of, response, db_after.
    by rewrite (deletePost_not_owner _ _ _ _ _ _ Hl Hne).
  - intros postId commentId id p c Hl Hc Hne. unfold outcome_of, response, db_after.
    by rewrite (deleteComment_not_owner _ _ _ _ _ _ _ _ Hl Hc Hne).
Qed.

Lemma delete_by_non_owner_forbidden_witness :
  outcome_of (deletePost Sample.cast Sample.bob Sample.post1) Sample.store = Some Forbidden /\
  db_after (deletePost Sample.cast Sample.bob Sample.post1) Sample.store = Sample.store /\
  outcome_of (deleteComment Sample.cast Sample.ann Sample.post1 "c1") Sample.store
  = Some Forbidden /\
  db_after (deleteComment Sample.cast Sample.ann Sample.post1 "c1") Sample.store
  = Sample.store.
Proof.
  destruct (delete_by_non_owner_forbidden Sample.cast Sample.bob Sample.store) as [Hpost _].
  destruct (delete_by_non_owner_forbidden Sample.cast Sample.ann Sample.store) as [_ Hcomment].
  destruct (Hpost Sample.post1 Sample.post1 Sample.hello) as (_ & H1 & H2 & _).
  { vm_compute. reflexivity. }
  { discriminate. }
  destruct (Hcomment Sample.post1 "c1" Sample.post1 Sample.hello Sample.comment1)
    as (_ & H3 & H4 & _).
  { vm_compute. reflexivity. }
  { reflexivity. }
  { discriminate. }
  repeat split; assumption.
Defined.

(** ** addComment *)

Lemma validation_passes (ok : bool) msg : ok = true -> validationResult [(ok, msg)] = [].
Proof. by intros ->. Qed.

(** C10: addComment does not check that the post exists.  With a text
    that passes validation and a [postId] that refers to no stored post
    (absent or not an ObjectId), the answer is 500 UnexpectedError, not
    NotFound, and the store is unchanged, so no post gains a comment. *)
Theorem addComment_unknown_post cast caller postId text fresh now d :
  not_isEmpty text = true ->
  lookup_post cast d postId = None ->
  let h := addComment cast caller postId text fresh now in
  response h d = Some (send 500 "Server Error") /\
  outcome_of h d = Some UnexpectedError /\
  outcome_of h d <> Some NotFound /\
  db_after h d = d.
Proof.
  intros Hv Hl. cbn zeta. unfold outcome_of, response, db_after, addComment.
  rewrite (validation_passes _ _ Hv). cbn [isEmpty negb].
  unfold_handler.
  apply lookup_post_None in Hl as [Hc | (id & Hc & Hp)]; rewrite Hc; cbn.
  - done.
  - rewrite Hp. destruct (users d !! caller); cbn; done.
Qed.

Lemma addComment_unknown_post_witness :
  response (addComment Sample.cast Sample.bob Sample.post2 (Some "hi") "c9" 5) Sample.store
  = Some (send 500 "Server Error") /\
  response (addComment Sample.cast Sample.bob "not-an-id" (Some "hi") "c9" 5) Sample.store
  = Some (send 500 "Server Error").
Proof.
  split.
  - apply (addComment_unknown_post Sample.cast Sample.bob Sample.post2 (Some "hi") "c9" 5
             Sample.store); reflexivity.
  - apply (addComment_unknown_post Sample.cast Sample.bob "not-an-id" (Some "hi") "c9" 5
             Sample.store); reflexivity.
Defined.

(** ** The likes of a post never hold a user twice *)

Lemma NoDup_map_filter {A B} (g : A -> B) (f : A -> bool) (l : list A) :
  List.NoDup (List.map g l) -> List.NoDup (List.map g (List.filter f l)).
Proof.
  induction l as [|a l IH]; [done|]. cbn [List.map List.filter].
  intros [Hnotin Hnd]%List.NoDup_cons_iff. destruct (f a); [|by apply IH].
  cbn [List.map]. apply List.NoDup_cons; [|by apply IH].
  intros (x & Hx & Hin)%in_map_iff. apply Hnotin. apply in_map_iff.
  exists x. split; [done|]. by apply List.filter_In in Hin as [Hin _].
Qed.

(** A store keeps the invariant when each of its posts is an old post or
    has likes by distinct users. *)
Lemma likes_unique_from d d' :
  likes_unique d ->
  (forall id p, posts d' !! id = Some p -> posts d !! id = Some p \/ List.NoDup (likers p)) ->
  likes_unique d'.
Proof. intros Hinv Hsub id p Hp. destruct (Hsub id p Hp) as [Hold|Hnd]; eauto. Qed.

Lemma likes_unique_insert d us prs id p :
  likes_unique d -> List.NoDup (likers p) ->
  likes_unique (mkDb us prs (<[id := p]> (posts d))).
Proof.
  intros Hinv Hnd. apply (likes_unique_from d); [done|]. cbn. intros i q.
  rewrite lookup_insert. case_decide; [|by left]. intros [= <-]. by right.
Qed.

Lemma likes_unique_delete d us prs id :
  likes_unique d -> likes_unique (mkDb us prs (delete id (posts d))).
Proof.
  intros Hinv. apply (likes_unique_from d); [done|]. cbn. intros i q.
  rewrite lookup_delete. case_decide; [done|by left].
Qed.

Lemma likes_unique_filter d us prs (P : string * Post -> Prop) `{!forall kv, Decision (P kv)} :
  likes_unique d -> likes_unique (mkDb us prs (filter P (posts d))).
Proof.
  intros Hinv. apply (likes_unique_from d); [done|]. cbn. intros i q.
  rewrite map_lookup_filter_Some. intros [Hq _]. by left.
Qed.

Lemma likes_unique_same_posts d d' :
  posts d' = posts d -> likes_unique d -> likes_unique d'.
Proof. unfold likes_unique. by intros ->. Qed.

Section PostsPreserved.

Variable cast : string -> option ObjectId.
Variable d : Db.
Hypothesis Hinv : likes_unique d.

Lemma createPost_likes_unique caller text fresh now :
  likes_unique (db_after (createPost caller text fresh now) d).
Proof using Hinv.
  unfold createPost, db_after. destruct (negb _); unfold_handler; [done|].
  destruct (users d !! caller); cbn; [|done].
  apply likes_unique_insert; [done|]. constructor.
Qed.

Lemma getPost_likes_unique postId :
  likes_unique (db_after (getPost cast postId) d).
Proof using Hinv.
  unfold getPost, db_after; unfold_handler.
  destruct (cast postId) as [id|]; cbn; [|done].
  by destruct (posts d !! id).
Qed.

Lemma deletePost_likes_unique caller postId :
  likes_unique (db_after (deletePost cast caller postId) d).
Proof using Hinv.
  unfold deletePost, db_after; unfold_handler.
  destruct (cast postId) as [id|]; cbn; [|done].
  destruct (posts d !! id) as [p|]; cbn; [|done].
  destruct (negb _); cbn; [done|]. by apply likes_unique_delete.
Qed.

Lemma likePost_likes_unique caller postId fresh :
  likes_unique (db_after (likePost cast caller postId fresh) d).
Proof using Hinv.
  unfold db_after.
  destruct (lookup_post cast d postId) as [[id p]|] eqn:Hl;
    [|by rewrite likePost_absent].
  destruct (in_dec string_dec caller (likers p)) as [Hin|Hnotin].
  - by erewrite likePost_liked.
  - erewrite likePost_fresh by done. cbn. apply likes_unique_insert; [done|].
    apply lookup_post_Some in Hl as [_ Hp]. cbn. apply List.NoDup_cons; [done|].
    by apply (Hinv id).
Qed.

Lemma unlikePost_likes_unique caller postId :
  likes_unique (db_after (unlikePost cast caller postId) d).
Proof using Hinv.
  unfold db_after.
  destruct (lookup_post cast d postId) as [[id p]|] eqn:Hl;
    [|by rewrite unlikePost_absent].
  destruct (in_dec string_dec caller (likers p)) as [Hin|Hnotin].
  - erewrite unlikePost_liked by done. cbn. apply likes_unique_insert; [done|].
    apply lookup_post_Some in Hl as [_ Hp]. cbn. apply NoDup_map_filter.
    by apply (Hinv id).
  - by erewrite unlikePost_not_liked.
Qed.

Lemma addComment_likes_unique caller postId text fresh now :
  likes_unique (db_after (addComment cast caller postId text fresh now) d).
Proof using Hinv.
  unfold addComment, db_after. destruct (negb _); unfold_handler; [done|].
  destruct (cast postId) as [id|]; cbn; [|done].
  destruct (posts d !! id) as [p|] eqn:Hp; destruct (users d !! caller); cbn; try done.
  apply likes_unique_insert; [done|]. exact (Hinv id p Hp).
Qed.

Lemma deleteComment_likes_unique caller postId commentId :
  likes_unique (db_after (deleteComment cast caller postId commentId) d).
Proof using Hinv.
  unfold deleteComment, db_after; unfold_handler.
  destruct (cast postId) as [id|]; cbn; [|done].
  destruct (posts d !! id) as [p|] eqn:Hp; cbn; [|done].
  destruct (List.find _ _) as [c|]; cbn; [|done].
  destruct (negb _); cbn; [done|].
  apply likes_unique_insert; [done|]. exact (Hinv id p Hp).
Qed.

Lemma deleteMyProfile_likes_unique caller :
  likes_unique (db_after (deleteMyProfile caller) d).
Proof using Hinv.
  unfold deleteMyProfile, db_after; unfold_handler.
  by apply likes_unique_filter.
Qed.

End PostsPreserved.

(** *** Routes that do not write posts *)

Lemma kp_ret {A} (a : A) : keeps_posts (ret a).
Proof. done. Qed.

Lemma kp_throw {A} e : keeps_posts (@throw A e).
Proof. done. Qed.

Lemma kp_bind {A B} (m : M A) (k : A -> M B) :
  keeps_posts m -> (forall a, keeps_posts (k a)) -> keeps_posts (bind m k).
Proof.
  intros Hm Hk w. unfold bind. specialize (Hm w).
  destruct (m w) as [w' [e|a]]; [done|]. cbn in Hm. by rewrite Hk.
Qed.

Lemma kp_try_catch {A} (m : M A) (h : Exc -> M A) :
  keeps_posts m -> (forall e, keeps_posts (h e)) -> keeps_posts (try_catch m h).
Proof.
  intros Hm Hh w. unfold try_catch. specialize (Hm w).
  destruct (m w) as [w' [e|a]]; [|done]. cbn in Hm. by rewrite Hh.
Qed.

Lemma kp_reply r : keeps_posts (reply r).
Proof. intros w. unfold reply. by destruct (sent w). Qed.

Lemma kp_issue q : keeps_posts (issue q).
Proof. done. Qed.

Lemma kp_get_db : keeps_posts get_db.
Proof. done. Qed.

Lemma kp_set_profiles f : keeps_posts (set_profiles f).
Proof. done. Qed.

Lemma kp_deref {A} (o : option A) : keeps_posts (deref o).
Proof. by destruct o. Qed.

Lemma kp_axios_get upstream r : keeps_posts (axios_get upstream r).
Proof. intros w. unfold axios_get. by destruct (upstream r). Qed.

Create HintDb kp discriminated.
#[local] Hint Resolve kp_ret kp_throw kp_reply kp_issue kp_get_db kp_set_profiles
  kp_deref kp_axios_get : kp.

Ltac kp_step :=
  match goal with
  | |- keeps_posts (bind _ _) => apply kp_bind; [|intros ?]
  | |- keeps_posts (try_catch _ _) => apply kp_try_catch; [|intros ?]
  | |- keeps_posts (match ?x with _ => _ end) => destruct x
  | |- keeps_posts _ => solve [auto with kp]
  end.

Ltac kp := repeat kp_step.

Lemma kp_server_error : keeps_posts server_error.
Proof. apply kp_reply. Qed.
#[local] Hint Resolve kp_server_error : kp.

Lemma kp_normalizeField normalize v : keeps_posts (normalizeField normalize v).
Proof. unfold normalizeField. kp. Qed.
#[local] Hint Resolve kp_normalizeField : kp.

Lemma kp_Profile_findOne user : keeps_posts (Profile_findOne user).
Proof. unfold Profile_findOne. kp. Qed.

Lemma kp_Profile_findOne_param cast raw : keeps_posts (Profile_findOne_param cast raw).
Proof. unfold Profile_findOne_param. kp. Qed.

Lemma kp_Profile_save valid p : keeps_posts (Profile_save valid p).
Proof. unfold Profile_save. kp. Qed.

Lemma kp_populate p : keeps_posts (populate p).
Proof. unfold populate. kp. Qed.
#[local] Hint Resolve kp_Profile_findOne kp_Profile_findOne_param kp_Profile_save
  kp_populate : kp.

Lemma kp_Profile_findOneAndUpdate caller b website skills social fresh now :
  keeps_posts (Profile_findOneAndUpdate caller b website skills social fresh now).
Proof. unfold Profile_findOneAndUpdate. kp. Qed.
#[local] Hint Resolve kp_Profile_findOneAndUpdate : kp.

Lemma kp_getMyProfile caller : keeps_posts (getMyProfile caller).
Proof. unfold getMyProfile. kp. Qed.

Lemma kp_getProfileByUser cast userId : keeps_posts (getProfileByUser cast userId).
Proof. unfold getProfileByUser. kp. Qed.

Lemma kp_upsertProfile normalize notEmptyArray caller b fresh now :
  keeps_posts (upsertProfile normalize notEmptyArray caller b fresh now).
Proof. unfold upsertProfile. kp. Qed.

Lemma kp_addExperience schemaOk caller b fresh :
  keeps_posts (addExperience schemaOk caller b fresh).
Proof. unfold addExperience. kp. Qed.

Lemma kp_removeExperience caller expId : keeps_posts (removeExperience caller expId).
Proof. unfold removeExperience. kp. Qed.

Lemma kp_addEducation schemaOk caller b fresh :
  keeps_posts (addEducation schemaOk caller b fresh).
Proof. unfold addEducation. kp. Qed.

Lemma kp_removeEducation caller eduId : keeps_posts (removeEducation caller eduId).
Proof. unfold removeEducation. kp. Qed.

Lemma kp_getGithubRepos token upstream username :
  keeps_posts (getGithubRepos token upstream username).
Proof. unfold getGithubRepos. kp. Qed.

Lemma keeps_posts_likes_unique (h : M unit) d :
  keeps_posts h -> likes_unique d -> likes_unique (db_after h d).
Proof. intros Hk. apply likes_unique_same_posts. apply Hk. Qed.

Lemma handle_likes_unique E r d :
  likes_unique d -> likes_unique (db_after (handle E r) d).
Proof.
  intros Hinv. destruct r; cbn [handle].
  - by apply createPost_likes_unique.
  - by apply getPost_likes_unique.
  - by apply deletePost_likes_unique.
  - by apply likePost_likes_unique.
  - by apply unlikePost_likes_unique.
  - by apply addComment_likes_unique.
  - by apply deleteComment_likes_unique.
  - by apply keeps_posts_likes_unique; [apply kp_getMyProfile|].
  - by apply keeps_posts_likes_unique; [apply kp_upsertProfile|].
  - by apply keeps_posts_likes_unique; [apply kp_getProfileByUser|].
  - by apply deleteMyProfile_likes_unique.
  - by apply keeps_posts_likes_unique; [apply kp_addExperience|].
  - by apply keeps_posts_likes_unique; [apply kp_removeExperience|].
  - by apply keeps_posts_likes_unique; [apply kp_addEducation|].
  - by apply keeps_posts_likes_unique; [apply kp_removeEducation|].
  - by apply keeps_posts_likes_unique; [apply kp_getGithubRepos|].
Qed.

(** C6: on every post of every store the API can produce, the likes hold
    at most one like per user; likePost and unlikePost, the two routes that
    write likes, keep that property whatever their arguments and outcome,
    and so does every other route. *)
Theorem likes_unique_invariant E :
  (forall d, reachable E d -> likes_unique d) /\
  (forall d, likes_unique d ->
     (forall caller postId fresh,
         likes_unique (db_after (likePost (env_castObjectId E) caller postId fresh) d)) /\
     (forall caller postId,
         likes_unique (db_after (unlikePost (env_castObjectId E) caller postId) d)) /\
     (forall r, likes_unique (db_after (handle E r) d))).
Proof.
  split.
  - induction 1 as [d Hempty|d r _ IH].
    + intros id p. rewrite Hempty, lookup_empty. done.
    + by apply handle_likes_unique.
  - intros d Hinv. repeat split; intros.
    + by apply likePost_likes_unique.
    + by apply unlikePost_likes_unique.
    + by apply handle_likes_unique.
Qed.

Lemma likes_unique_sample : likes_unique Sample.store.
Proof.
  intros id p. cbn. intros [_ <-]%lookup_singleton_Some. cbn.
  apply List.NoDup_cons; [intros []|constructor].
Qed.

Lemma likes_unique_invariant_witness :
  likes_unique
    (db_after (handle Sample.env (LikePost Sample.bob Sample.post1 "l1"))
       (db_after (handle Sample.env (CreatePost Sample.ann (Some "hi") Sample.post1 3))
          (mkDb (users Sample.store) [] ∅))) /\
  likes_unique (db_after (likePost Sample.cast Sample.bob Sample.post1 "l1") Sample.store) /\
  likes_unique (db_after (unlikePost Sample.cast Sample.ann Sample.post1) Sample.store).
Proof.
  destruct (likes_unique_invariant Sample.env) as [Hreach Hstep].
  split.
  - apply Hreach. do 2 apply reachable_step. apply reachable_init. reflexivity.
  - destruct (Hstep Sample.store likes_unique_sample) as (Hlike & Hunlike & _).
    split; [apply Hlike | apply Hunlike].
Defined.

(** ** The profiles collection *)

Lemma find_user_In user ps p :
  List.find (fun q => String.eqb (pr_user q) user) ps = Some p ->
  In p ps /\ pr_user p = user.
Proof. intros [Hin Heq]%List.find_some. split; [done|]. by apply String.eqb_eq. Qed.

(** Saving a changed document: the profile found for the user is now the
    changed one. *)
Lemma find_replace_doc user ps p p' :
  List.NoDup (List.map pr_id ps) ->
  List.find (fun q => String.eqb (pr_user q) user) ps = Some p ->
  pr_id p' = pr_id p -> pr_user p' = pr_user p ->
  List.find (fun q => String.eqb (pr_user q) user) (replace_doc p' ps) = Some p'.
Proof.
  intros Hnd Hfind Hid Huser. induction ps as [|q ps IH]; [done|].
  cbn [List.map] in Hnd. apply List.NoDup_cons_iff in Hnd as [Hq Hnd].
  cbn [List.find replace_doc] in *.
  destruct (String.eqb_spec (pr_user q) user) as [Hu|Hu].
  - injection Hfind as ->. rewrite Hid, String.eqb_refl. cbn [List.find].
    rewrite Huser, Hu. by rewrite String.eqb_refl.
  - destruct (String.eqb_spec (pr_id q) (pr_id p')) as [Hi|Hi].
    + destruct Hq. rewrite Hi, Hid. apply in_map. by apply find_user_In in Hfind as [? _].
    + cbn [List.find]. apply String.eqb_neq in Hu. rewrite Hu. by apply IH.
Qed.

(** Saving an unchanged document changes nothing. *)
Lemma replace_doc_same ps p :
  List.NoDup (List.map pr_id ps) -> In p ps -> replace_doc p ps = ps.
Proof.
  induction ps as [|q ps IH]; [done|]. cbn [List.map In replace_doc].
  intros [Hq Hnd]%List.NoDup_cons_iff [->|Hin]; [by rewrite String.eqb_refl|].
  destruct (String.eqb_spec (pr_id q) (pr_id p)) as [Hi|Hi].
  - destruct Hq. rewrite Hi. by apply in_map.
  - f_equal. by apply IH.
Qed.

(** Saving twice is saving once. *)
Lemma replace_doc_twice ps p : replace_doc p (replace_doc p ps) = replace_doc p ps.
Proof.
  induction ps as [|q ps IH]; [done|]. cbn [replace_doc].
  destruct (String.eqb_spec (pr_id q) (pr_id p)) as [Hi|Hi]; cbn [replace_doc].
  - by rewrite String.eqb_refl.
  - apply String.eqb_neq in Hi. rewrite Hi. by rewrite IH.
Qed.

(** Once the one profile of a user is removed, none is found. *)
Lemma find_remove_first user ps :
  List.NoDup (List.map pr_user ps) ->
  List.find (fun q => String.eqb (pr_user q) user)
    (remove_first (fun q => String.eqb (pr_user q) user) ps) = None.
Proof.
  induction ps as [|q ps IH]; [done|]. cbn [List.map remove_first].
  intros [Hq Hnd]%List.NoDup_cons_iff.
  destruct (String.eqb_spec (pr_user q) user) as [Hu|Hu].
  - destruct (List.find _ ps) as [p|] eqn:Hfind; [|done].
    apply find_user_In in Hfind as [Hin Hp]. destruct Hq. rewrite Hu, <- Hp. by apply in_map.
  - cbn [List.find]. apply String.eqb_neq in Hu. rewrite Hu. by apply IH.
Qed.

Lemma with_experience_same p : with_experience p (pr_experience p) = p.
Proof. by destruct p. Qed.

Lemma filter_filter {A} (f : A -> bool) (l : list A) :
  List.filter f (List.filter f l) = List.filter f l.
Proof.
  induction l as [|a l IH]; [done|]. cbn [List.filter].
  destruct (f a) eqn:E; [|done]. cbn [List.filter]. by rewrite E, IH.
Qed.

Lemma filter_all {A} (f : A -> bool) (l : list A) :
  (forall a, In a l -> f a = true) -> List.filter f l = l.
Proof.
  induction l as [|a l IH]; [done|]. cbn [List.filter In]. intros H.
  rewrite (H a) by (by left). f_equal. apply IH. intros b Hb. apply H. by right.
Qed.

(** ** removeExperience *)

Lemma removeExperience_run caller expId d p :
  profile_of d caller = Some p ->
  run (removeExperience caller expId) d
  = (mkWorld
       (mkDb (users d) (replace_doc (without_experience expId p) (profiles d)) (posts d))
       (Some (json 200 (BProfile (without_experience expId p)))) []
       [QProfileFindOne caller; QProfileSave (pr_id p)],
     inr tt).
Proof.
  intros Hfind. unfold profile_of in Hfind.
  unfold removeExperience; unfold_handler. by rewrite Hfind.
Qed.

Lemma removeExperience_no_profile caller expId d :
  profile_of d caller = None ->
  run (removeExperience caller expId) d
  = (mkWorld d (Some (send 500 "Server Error")) [] [QProfileFindOne caller], inr tt).
Proof.
  intros Hfind. unfold profile_of in Hfind.
  unfold removeExperience; unfold_handler. by rewrite Hfind.
Qed.

(** C7: for a caller who has a profile, removeExperience answers 200
    with the profile from which exactly the entries with id [expId] are
    gone, and stores it.  When no entry has that id, the profile answered
    is the stored one and the store is unchanged.  A second call with the
    same id gives the same answer and leaves the store as the first call
    left it. *)
Theorem removeExperience_contract caller expId d p :
  profile_ids_unique d ->
  profile_of d caller = Some p ->
  let h := removeExperience caller expId in
  let p' := without_experience expId p in
  (response h d = Some (json 200 (BProfile p')) /\
   outcome_of h d = Some Success /\
   profile_of (db_after h d) caller = Some p' /\
   forall e, In e (pr_experience p') <-> In e (pr_experience p) /\ x_id e <> expId) /\
  ((forall e, In e (pr_experience p) -> x_id e <> expId) ->
   response h d = Some (json 200 (BProfile p)) /\ db_after h d = d) /\
  (response h (db_after h d) = response h d /\
   db_after h (db_after h d) = db_after h d).
Proof.
  intros Hids Hp h p'. unfold outcome_of, response, db_after.
  pose proof (removeExperience_run caller expId d p Hp) as Hrun. fold h p' in Hrun.
  set (d1 := mkDb (users d) (replace_doc p' (profiles d)) (posts d)) in Hrun.
  assert (Hp' : profile_of d1 caller = Some p') by by apply (find_replace_doc _ _ p).
  rewrite Hrun. cbn [fst db sent]. split; [|split].
  - do 3 (split; [done|]). intros e.
    unfold p', without_experience. cbn. rewrite List.filter_In.
    by rewrite negb_true_iff, String.eqb_neq.
  - intros Hnone.
    assert (Hsame : p' = p).
    { unfold p', without_experience. rewrite filter_all; [apply with_experience_same|].
      intros e He. by apply negb_true_iff, String.eqb_neq, Hnone. }
    unfold d1. rewrite Hsame. split; [done|].
    rewrite replace_doc_same; [apply db_eta|done|].
    by apply find_user_In in Hp as [? _].
  - pose proof (removeExperience_run caller expId d1 p' Hp') as Hrun2. fold h in Hrun2.
    assert (Hsame : without_experience expId p' = p').
    { unfold p', without_experience. cbn. by rewrite filter_filter. }
    rewrite Hsame in Hrun2. rewrite Hrun2. cbn.
    split; [done|]. unfold d1. cbn. by rewrite replace_doc_twice.
Qed.

Lemma removeExperience_contract_witness :
  response (removeExperience Sample.ann "x1") Sample.store
  = Some (json 200 (BProfile (with_experience Sample.ann_profile []))) /\
  db_after (removeExperience Sample.ann "x2") Sample.store = Sample.store.
Proof.
  assert (Hids : profile_ids_unique Sample.store).
  { unfold profile_ids_unique. cbn. apply List.NoDup_cons; [intros []|constructor]. }
  destruct (removeExperience_contract Sample.ann "x1" Sample.store Sample.ann_profile Hids)
    as ((Hremoved & _) & _ & _); [reflexivity|].
  destruct (removeExperience_contract Sample.ann "x2" Sample.store Sample.ann_profile Hids)
    as (_ & Hnoop & _); [reflexivity|].
  split; [exact Hremoved|]. apply Hnoop.
  intros e [<-|[]]. discriminate.
Defined.

(** ** deleteMyProfile *)

Lemma deleteMyProfile_run caller d :
  run (deleteMyProfile caller) d
  = (mkWorld
       (mkDb (delete caller (users d))
          (remove_first (fun p => String.eqb (pr_user p) caller) (profiles d))
          (filter (fun kv => p_user (snd kv) <> caller) (posts d)))
       (Some (json 200 (BMsg "User deleted"))) []
       [QPostDeleteMany caller; QProfileFindOneAndRemove caller; QUserFindOneAndRemove caller],
     inr tt).
Proof. reflexivity. Qed.

(** The store after each of the three steps of the cascade. *)
Lemma deleteMyProfile_steps caller d :
  let d1 := db (fst (Post_deleteMany caller (mkWorld d None [] []))) in
  let d2 := db (fst (Profile_findOneAndRemove caller (mkWorld d1 None [] []))) in
  let d3 := db (fst (User_findOneAndRemove caller (mkWorld d2 None [] []))) in
  (users d1 = users d /\ profiles d1 = profiles d) /\
  (users d2 = users d /\ posts d2 = posts d1) /\
  (profiles d3 = profiles d2 /\ posts d3 = posts d1) /\
  db_after (deleteMyProfile caller) d = d3.
Proof. done. Qed.

Lemma getProfileByUser_absent cast userId d :
  (forall user, cast userId = Some user -> profile_of d user = None) ->
  run (getProfileByUser cast userId) d
  = (mkWorld d (Some (json 400 (BMsg "Profile not found"))) [] [QProfileFindOne userId],
     inr tt).
Proof.
  intros Hnone. unfold getProfileByUser; unfold_handler.
  destruct (cast userId) as [user|]; cbn; [|done].
  specialize (Hnone user eq_refl). unfold profile_of in Hnone. by rewrite Hnone.
Qed.

(** C3: deleteMyProfile calls the models in a fixed order: it deletes
    the posts whose user is the caller, then the caller's profile, then the
    caller's user document, and answers 200.  Afterwards the stored posts
    are the former posts of the other users, the caller's profile and user
    document are removed and, profiles being one per user, getProfileByUser
    on the caller's id answers 400 NotFound. *)
Theorem deleteMyProfile_cascade cast caller d :
  let h := deleteMyProfile caller in
  trace h d
  = [QPostDeleteMany caller; QProfileFindOneAndRemove caller; QUserFindOneAndRemove caller] /\
  response h d = Some (json 200 (BMsg "User deleted")) /\
  (forall id p, posts (db_after h d) !! id = Some p <->
                posts d !! id = Some p /\ p_user p <> caller) /\
  profiles (db_after h d)
  = remove_first (fun p => String.eqb (pr_user p) caller) (profiles d) /\
  users (db_after h d) = delete caller (users d) /\
  (one_profile_per_user d ->
   cast caller = Some caller ->
   profile_of (db_after h d) caller = None /\
   response (getProfileByUser cast caller) (db_after h d)
   = Some (json 400 (BMsg "Profile not found")) /\
   outcome_of (getProfileByUser cast caller) (db_after h d) = Some NotFound).
Proof.
  intros h. unfold trace, response at 1, db_after, h. rewrite deleteMyProfile_run.
  cbn [fst db sent queries users profiles posts].
  do 2 (split; [done|]). split; [|do 2 (split; [done|])].
  - intros id p. by rewrite map_lookup_filter_Some.
  - intros Hone Hcast.
    set (d' := mkDb _ _ _).
    assert (Hgone : profile_of d' caller = None) by by apply find_remove_first.
    split; [done|]. unfold outcome_of, response.
    rewrite getProfileByUser_absent; [done|].
    intros user. rewrite Hcast. by intros [= <-].
Qed.

Lemma deleteMyProfile_cascade_witness :
  let d' := db_after (deleteMyProfile Sample.ann) Sample.store in
  posts d' !! Sample.post1 = None /\
  outcome_of (getProfileByUser Sample.cast Sample.ann) d' = Some NotFound.
Proof.
  assert (Hone : one_profile_per_user Sample.store).
  { unfold one_profile_per_user. cbn. apply List.NoDup_cons; [intros []|constructor]. }
  destruct (deleteMyProfile_cascade Sample.cast Sample.ann Sample.store)
    as (_ & _ & Hposts & _ & _ & Hget).
  destruct (Hget Hone eq_refl) as (_ & _ & Hnotfound).
  split; [|exact Hnotfound].
  destruct (posts _ !! Sample.post1) as [p|] eqn:Hp; [|reflexivity].
  apply Hposts in Hp as [Hp Hne]. vm_compute in Hp. injection Hp as <-.
  destruct Hne. reflexivity.
Defined.

(** ** addExperience, addEducation *)

Lemma validation_fails checks :
  List.existsb (fun c => negb (fst c)) checks = true ->
  isEmpty (validationResult checks) = false.
Proof.
  unfold validationResult. induction checks as [|[ok msg] checks IH]; [done|].
  cbn. destruct ok; cbn; [exact IH|done].
Qed.

(** The sibling route returns on a validation failure: 400 with the
    messages, no model is called and the store is unchanged. *)
Lemma addExperience_incomplete schemaOk caller b fresh d :
  experience_incomplete b ->
  exists errors,
    run (addExperience schemaOk caller b fresh) d
    = (mkWorld d (Some (json 400 (BErrors errors))) [] [], inr tt).
Proof.
  intros Hinc. unfold addExperience. cbn zeta. eexists. rewrite validation_fails.
  - cbn [negb]. reflexivity.
  - cbn. destruct Hinc as [->| [->| ->]]; cbn; by rewrite ?orb_true_r.
Qed.






(** C1 (the code departs from the claim): an education entry without
    [from], sent by a user who has a profile.  The validation answer 400
    is sent, and the handler goes on to load and save the profile.  On a
    store whose schema accepts the entry it is stored in front of the
    education list; on a store whose schema rejects it the education list
    is unchanged; either way the handler ends on an unhandled exception.
    The same body on the experience route is answered 400 and nothing
    else happens. *)
Theorem addEducation_missing_from_is_stored :
  let h := addEducation (fun _ => true) Sample.ann Sample.no_from "e1" in
  let strict := addEducation (fun _ => false) Sample.ann Sample.no_from "e1" in
  let sibling := addExperience (fun _ => true) Sample.ann Sample.no_from_exp "x9" in
  (response h Sample.store = Some (json 400 (BErrors ["From date is required"])) /\
   outcome_of h Sample.store = Some ValidationError /\
   (pr_education <$> profile_of Sample.store Sample.ann) = Some [] /\
   (pr_education <$> profile_of (db_after h Sample.store) Sample.ann)
   = Some [newEdu Sample.no_from "e1"] /\
   trace h Sample.store
   = [QProfileFindOne Sample.ann; QProfileSave (pr_id Sample.ann_profile)] /\
   escaped h Sample.store = Some HeadersSent) /\
  (outcome_of strict Sample.store = Some ValidationError /\
   db_after strict Sample.store = Sample.store /\
   trace strict Sample.store
   = [QProfileFindOne Sample.ann; QProfileSave (pr_id Sample.ann_profile)] /\
   escaped strict Sample.store = Some HeadersSent) /\
  (outcome_of sibling Sample.store = Some ValidationError /\
   db_after sibling Sample.store = Sample.store /\
   trace sibling Sample.store = [] /\
   escaped sibling Sample.store = None).
Proof. cbn zeta. repeat split. Qed.

(** ** Skills *)

Lemma split_cons sep s : exists w ws, split sep s = w :: ws.
Proof.
  destruct s as [|c s]; cbn; [by eauto|].
  destruct (c =? sep)%N; [by eauto|]. destruct (split sep s); eauto.
Qed.

(** Splitting loses nothing: the pieces joined by the separator are the
    string. *)
Lemma join_split sep s : join sep (split sep s) = s.
Proof.
  induction s as [|c s IH]; [done|]. cbn [split].
  destruct (N.eqb_spec c sep) as [->|Hne].
  - destruct (split_cons sep s) as (w & ws & Hs). rewrite Hs in *.
    change (sep :: join sep (w :: ws) = sep :: s). by rewrite IH.
  - destruct (split_cons sep s) as (w & ws & Hs). rewrite Hs in *.
    destruct ws as [|w' ws].
    + cbn [join] in *. by rewrite IH.
    + change (c :: join sep (w :: w' :: ws) = c :: s). by rewrite IH.
Qed.

(** No piece holds the separator. *)
Lemma split_no_sep sep s : Forall (fun w => ~ In sep w) (split sep s).
Proof.
  induction s as [|c s IH]; cbn [split].
  - constructor; [intros []|constructor].
  - destruct (N.eqb_spec c sep) as [->|Hne].
    + constructor; [intros []|done].
    + destruct (split sep s) as [|w ws]; [constructor; [|constructor]|].
      * intros [Heq|[]]. by destruct Hne.
      * apply Forall_cons in IH as [Hw Hws]. constructor; [|done].
        intros [Heq|Hin]; [by destruct Hne|by apply Hw].
Qed.

Lemma trimStart_spec s :
  exists l, s = l ++ trimStart s /\ forallb isWhiteSpace l = true /\
            starts_clean (trimStart s).
Proof.
  induction s as [|c s (l & Hs & Hl & Hc)]; [by exists []|]. cbn [trimStart].
  destruct (isWhiteSpace c) eqn:Hw.
  - exists (c :: l). cbn. rewrite Hw, Hl. split; [by f_equal|done].
  - exists []. by cbn.
Qed.

Lemma trimEnd_spec s :
  exists r, s = trimEnd s ++ r /\ forallb isWhiteSpace r = true /\
            ends_clean (trimEnd s).
Proof.
  unfold trimEnd, ends_clean. destruct (trimStart_spec (rev s)) as (l & Hs & Hl & Hc).
  exists (rev l). split; [|split].
  - rewrite <- (rev_involutive s), Hs at 1. by rewrite rev_app_distr.
  - rewrite forallb_forall in *. intros x Hx. apply Hl. by apply in_rev.
  - by rewrite rev_involutive.
Qed.

(** Trimming the end keeps a clean start. *)
Lemma trimEnd_starts_clean t : starts_clean t -> starts_clean (trimEnd t).
Proof.
  intros Hc. destruct (trimEnd_spec t) as (r & Ht & _ & _).
  destruct (trimEnd t) as [|c u]; [done|]. rewrite Ht in Hc. exact Hc.
Qed.

Lemma trim_spec s : trimmed_of s (trim s).
Proof.
  unfold trim. destruct (trimStart_spec s) as (l & Hs & Hl & Hc).
  destruct (trimEnd_spec (trimStart s)) as (r & Ht & Hr & He).
  exists l, r. repeat split; try done.
  - by rewrite <- Ht.
  - by apply trimEnd_starts_clean.
Qed.

Lemma normalizeSkills_string_spec s :
  exists pieces,
    join comma pieces = s /\
    Forall (fun w => ~ In comma w) pieces /\
    Forall2 trimmed_of pieces (normalizeSkills (SkillsString s)).
Proof.
  exists (split comma s). split; [apply join_split|]. split; [apply split_no_sep|].
  cbn. induction (split comma s) as [|w ws IH]; constructor; [apply trim_spec|done].
Qed.

Lemma normalizeField_cases normalize v w :
  (exists r, normalizeField normalize v w = (w, inr r)) \/
  normalizeField normalize v w = (w, inl InvalidUrl).
Proof.
  unfold normalizeField. destruct v as [u|]; [|left; by eexists].
  destruct (String.eqb u ""); [left; by eexists|].
  destruct (normalize u); [left; by eexists|by right].
Qed.

Lemma find_update_first (f : Profile -> bool) g ps p :
  List.find f ps = Some p -> f (g p) = true ->
  List.find f (update_first f g ps) = Some (g p).
Proof.
  intros Hfind Hg. induction ps as [|q ps IH]; [done|]. cbn [List.find update_first] in *.
  destruct (f q) eqn:Hq.
  - injection Hfind as ->. cbn [List.find]. by rewrite Hg.
  - cbn [List.find]. rewrite Hq. by apply IH.
Qed.

Lemma find_app_new (f : Profile -> bool) ps p :
  List.find f ps = None -> f p = true -> List.find f (ps ++ [p]) = Some p.
Proof.
  intros Hfind Hp. induction ps as [|q ps IH]; cbn [List.find app] in *; [by rewrite Hp|].
  destruct (f q); [done|by apply IH].
Qed.

Ltac normalizeField_step :=
  match goal with
  | |- context [normalizeField ?n ?v ?w] =>
      let Hr := fresh "Hr" in
      destruct (normalizeField_cases n v w) as [[? Hr]|Hr]; rewrite !Hr; clear Hr;
      cbn [fst snd sent db]; [|discriminate]
  end.

(** Whenever the upsert answers 200, the profile answered carries the
    normalized skills of the request and is the stored profile of the
    caller. *)
Lemma upsertProfile_stores_skills normalize notEmptyArray caller b fresh now d p :
  response (upsertProfile normalize notEmptyArray caller b fresh now) d
  = Some (json 200 (BProfile p)) ->
  exists skills,
    pb_skills b = Some skills /\
    pr_skills p = normalizeSkills skills /\
    profile_of (db_after (upsertProfile normalize notEmptyArray caller b fresh now) d) caller
    = Some p.
Proof.
  unfold upsertProfile, response, db_after, run. cbn zeta.
  destruct (negb _).
  { unfold reply. cbn. intros [= H]. }
  unfold bind. normalizeField_step.
  destruct (pb_skills b) as [skills|]; cbn [deref]; unfold ret, throw; cbn [fst snd sent db];
    [|discriminate].
  do 5 normalizeField_step.
  unfold_handler. unfold Profile_findOneAndUpdate; unfold_handler.
  destruct (List.find _ (profiles d)) as [q|] eqn:Hfind; cbn; intros [= <-];
    exists skills; (split; [done|]); (split; [done|]); unfold profile_of; cbn.
  - apply find_update_first; [done|]. cbn. by apply List.find_some in Hfind as [_ ?].
  - apply find_app_new; [done|]. cbn. apply String.eqb_refl.
Qed.

(** C8: upsertProfile normalizes skills.  A string is split on commas
    and every piece is trimmed: the pieces joined by commas are the input,
    none holds a comma, and each stored skill is its piece without the
    white space around it; ["js, node , react"] gives [js], [node],
    [react].  A list is kept as it is.  The profile that a successful
    upsert answers and stores carries the normalized skills. *)
Theorem upsertProfile_normalizes_skills :
  normalizeSkills (SkillsString (lit "js, node , react"))
  = [lit "js"; lit "node"; lit "react"] /\
  (forall s, exists pieces,
      join comma pieces = s /\
      Forall (fun w => ~ In comma w) pieces /\
      Forall2 trimmed_of pieces (normalizeSkills (SkillsString s))) /\
  (forall l, normalizeSkills (SkillsArray l) = l) /\
  (forall normalize notEmptyArray caller b fresh now d p,
      response (upsertProfile normalize notEmptyArray caller b fresh now) d
      = Some (json 200 (BProfile p)) ->
      exists skills,
        pb_skills b = Some skills /\
        pr_skills p = normalizeSkills skills /\
        profile_of (db_after (upsertProfile normalize notEmptyArray caller b fresh now) d)
          caller = Some p).
Proof.
  split; [reflexivity|]. split; [apply normalizeSkills_string_spec|].
  split; [reflexivity|]. apply upsertProfile_stores_skills.
Qed.

Lemma upsertProfile_normalizes_skills_witness :
  let h :=
    upsertProfile (env_normalize Sample.env) (env_notEmptyArray Sample.env) Sample.bob
      Sample.form "610000000000000000000002" 9 in
  (pr_skills <$> profile_of (db_after h Sample.store) Sample.bob)
  = Some [lit "js"; lit "node"; lit "react"].
Proof.
  destruct upsertProfile_normalizes_skills as (_ & _ & _ & Hstored).
  destruct (Hstored (env_normalize Sample.env) (env_notEmptyArray Sample.env) Sample.bob
              Sample.form "610000000000000000000002" 9 Sample.store Sample.bob_profile)
    as (skills & _ & _ & Hp).
  - vm_compute. reflexivity.
  - cbn zeta. rewrite Hp. reflexivity.
Defined.

(** ** getGithubRepos *)

Lemma uriUnescaped_ascii c : uriUnescaped c = true -> (c < 128)%N.
Proof.
  intros H. destruct (N.ltb_spec c 128) as [Hlt|Hge]; [done|]. exfalso.
  revert H. unfold uriUnescaped. cbn [existsb lit List.map list_ascii_of_string N_of_ascii
    N_of_digits N.add N.mul].
  cbn.
  repeat match goal with
         | |- context [(?a <=? c)%N && (c <=? ?b)%N] =>
             rewrite (proj2 (N.leb_gt c b)) by lia; rewrite andb_false_r
         | |- context [(c =? ?k)%N] => rewrite (proj2 (N.eqb_neq c k)) by lia
         end.
  cbn. done.
Qed.

Lemma unescaped_not_surrogate c :
  uriUnescaped c = true -> isHighSurrogate c = false /\ isLowSurrogate c = false.
Proof.
  intros H%uriUnescaped_ascii. unfold isHighSurrogate, isLowSurrogate.
  rewrite (proj2 (N.leb_gt 55296 c)), (proj2 (N.leb_gt 56320 c)) by lia. done.
Qed.

(** Unescaped characters pass through. *)
Lemma encodeURI_unescaped a : forallb uriUnescaped a = true -> encodeURI a = Some a.
Proof.
  induction a as [|c a IH]; [done|]. cbn [forallb encodeURI].
  intros [Hc Ha]%andb_prop. rewrite Hc, IH by done. done.
Qed.

Lemma encodeURI_app_l a s :
  forallb uriUnescaped a = true -> encodeURI (a ++ s) = app a <$> encodeURI s.
Proof.
  induction a as [|c a IH]; cbn [forallb app encodeURI].
  - intros _. by destruct (encodeURI s).
  - intros [Hc Ha]%andb_prop. rewrite Hc, IH by done. by destruct (encodeURI s).
Qed.

Lemma encodeURI_app_r_bounded n b :
  forallb uriUnescaped b = true ->
  forall s, length s <= n -> encodeURI (s ++ b) = (fun u => u ++ b) <$> encodeURI s.
Proof.
  intros Hb. induction n as [n IH] using lt_wf_ind. intros s Hn.
  destruct s as [|c s]; [cbn; by rewrite (encodeURI_unescaped b Hb)|].
  cbn [app encodeURI length] in *.
  destruct (uriUnescaped c).
  { rewrite (IH (length s)) by lia. by destruct (encodeURI s). }
  destruct (isHighSurrogate c).
  { destruct s as [|c' s]; cbn [app length] in *.
    - destruct b as [|c' b]; [done|]. cbn [forallb] in Hb.
      apply andb_prop in Hb as [Hc' _].
      by rewrite (proj2 (unescaped_not_surrogate c' Hc')).
    - destruct (isLowSurrogate c'); [|done].
      rewrite (IH (length s)) by lia. destruct (encodeURI s); [|done]. cbn.
      by rewrite app_assoc. }
  destruct (isLowSurrogate c); [done|].
  rewrite (IH (length s)) by lia. destruct (encodeURI s); [|done]. cbn.
  by rewrite app_assoc.
Qed.

Lemma encodeURI_app_r s b :
  forallb uriUnescaped b = true ->
  encodeURI (s ++ b) = (fun u => u ++ b) <$> encodeURI s.
Proof. intros Hb. by apply (encodeURI_app_r_bounded (length s)). Qed.

(** The URI of the upstream call: the user name is encoded in place, the
    host and the query around it are the fixed text. *)
Lemma encodeURI_github username :
  encodeURI (github_prefix ++ username ++ github_query)
  = (fun u => github_prefix ++ u ++ github_query) <$> encodeURI username.
Proof.
  rewrite encodeURI_app_l by reflexivity. rewrite encodeURI_app_r by reflexivity.
  by destruct (encodeURI username).
Qed.

Lemma getGithubRepos_run token upstream username d u t :
  encodeURI username = Some u ->
  token = Some t ->
  run (getGithubRepos token upstream username) d
  = match upstream (github_request u t) with
    | inr data =>
        (mkWorld d (Some (json 200 (BRepos data))) [github_request u t] [], inr tt)
    | inl f =>
        (mkWorld d (Some (send 404 "No Github profile is found")) [github_request u t] [],
         inr tt)
    end.
Proof.
  intros Hu ->. unfold getGithubRepos. rewrite encodeURI_github, Hu.
  destruct (upstream (github_request u t)) as [f|data] eqn:Hup;
    unfold github_request, github_headers in Hup;
    unfold run, try_catch, bind, ret, axios_get;
    cbn [fmap option_fmap option_map fst snd db sent outbound queries];
    rewrite Hup; reflexivity.
Qed.

(** C9: for a user name that encodeURI accepts and a configured token,
    getGithubRepos makes exactly one upstream call, a GET on the fixed
    host and path with the encoded user name in place and the fixed query
    [per_page=5&sort=created:asc].  When the call succeeds the data is
    answered with 200; when it fails, for whatever reason, the answer is
    the one 404 NotFound.  The store is not touched. *)
Theorem getGithubRepos_contract token upstream username d u t :
  encodeURI username = Some u ->
  token = Some t ->
  let h := getGithubRepos token upstream username in
  let call :=
    mkHttpGet
      (lit "https://api.github.com/users/" ++ u ++ lit "/repos?per_page=5&sort=created:asc")
      [("user-agent", "node.js"); ("Authorization", "token " +:+ t)] in
  requests h d = [call] /\
  (forall data, upstream call = inr data -> response h d = Some (json 200 (BRepos data))) /\
  (forall f, upstream call = inl f ->
             response h d = Some (send 404 "No Github profile is found") /\
             outcome_of h d = Some NotFound) /\
  db_after h d = d /\ trace h d = [].
Proof.
  intros Hu Ht h call. unfold outcome_of, response, requests, db_after, trace.
  unfold h. rewrite (getGithubRepos_run _ _ _ _ _ _ Hu Ht).
  change (github_request u t) with call.
  destruct (upstream call) as [f|data] eqn:Hup;
    cbn [fst snd db sent outbound queries fmap option_fmap option_map];
    repeat split; try done; by intros ? [= <-].
Qed.

Lemma getGithubRepos_contract_witness :
  let h :=
    getGithubRepos (env_githubToken Sample.env) (env_upstream Sample.env) (lit "octo cat") in
  requests h Sample.store
  = [mkHttpGet (lit "https://api.github.com/users/octo%20cat/repos?per_page=5&sort=created:asc")
       [("user-agent", "node.js"); ("Authorization", "token secret")]] /\
  outcome_of h Sample.store = Some NotFound.
Proof.
  destruct (getGithubRepos_contract (env_githubToken Sample.env) (env_upstream Sample.env)
              (lit "octo cat") Sample.store (lit "octo%20cat") "secret")
    as (Hcall & _ & Hfail & _).
  - vm_compute. reflexivity.
  - reflexivity.
  - split; [exact Hcall|]. apply (Hfail RateLimited). reflexivity.
Defined.

(** Without a configured token, or for a user name that is not
    well-formed UTF-16, no call is made and the answer is the same 404. *)
Lemma getGithubRepos_no_call token upstream username d :
  encodeURI username = None \/ token = None ->
  requests (getGithubRepos token upstream username) d = [] /\
  response (getGithubRepos token upstream username) d
  = Some (send 404 "No Github profile is found").
Proof.
  intros H. unfold requests, response, getGithubRepos. rewrite encodeURI_github.
  unfold_handler. destruct (encodeURI username) as [u|]; cbn; [|done].
  destruct H as [H| ->]; [done|]. done.
Qed.

(** The reserved characters of a user name are not escaped. *)
Lemma encodeURI_keeps_reserved : encodeURI (lit "a?b#c") = Some (lit "a?b#c").
Proof. reflexivity. Qed.

(** * More of the posts router *)

(** ** unlikePost *)

(** X1: unlikePost answers 404 when the parameter refers to no post and
    400 Conflict when the caller is not among the likers, and changes
    nothing then; otherwise it stores and answers the likes without those
    of the caller, the others kept, after which the caller is no longer a
    liker. *)
Theorem unlikePost_contract cast caller postId d :
  let h := unlikePost cast caller postId in
  (lookup_post cast d postId = None ->
   response h d = Some (json 404 (BMsg "Post not found")) /\
   outcome_of h d = Some NotFound /\ db_after h d = d) /\
  (forall id p, lookup_post cast d postId = Some (id, p) -> ~ In caller (likers p) ->
   response h d = Some (json 400 (BMsg "Post has not yet been liked")) /\
   outcome_of h d = Some Conflict /\ db_after h d = d) /\
  (forall id p, lookup_post cast d postId = Some (id, p) -> In caller (likers p) ->
   let rest := List.filter (fun l => negb (String.eqb (l_user l) caller)) (p_likes p) in
   response h d = Some (json 200 (BLikes rest)) /\
   lookup_post cast (db_after h d) postId = Some (id, with_likes p rest) /\
   db_after h d = db_with_posts d (<[id := with_likes p rest]> (posts d)) /\
   ~ In caller (List.map l_user rest) /\
   (forall l, In l rest <-> In l (p_likes p) /\ l_user l <> caller)).
Proof.
  cbn zeta. unfold outcome_of, response, db_after. split; [|split].
  - intros Hl. by rewrite unlikePost_absent.
  - intros id p Hl Hn. by erewrite unlikePost_not_liked.
  - intros id p Hl Hin.
    erewrite unlikePost_liked by done. cbn [fst db sent].
    split; [done|]. split; [|split; [done|split]].
    + apply lookup_post_Some in Hl as [Hc _]. apply lookup_post_Some. split; [done|].
      apply lookup_insert_eq.
    + intros (l & Hu & [_ Hl']%List.filter_In)%in_map_iff.
      apply negb_true_iff, String.eqb_neq in Hl'. done.
    + intros l. rewrite List.filter_In. by rewrite negb_true_iff, String.eqb_neq.
Qed.

Lemma unlikePost_contract_witness :
  response (unlikePost Sample.cast Sample.ann Sample.post1) Sample.store
  = Some (json 200 (BLikes [])) /\
  outcome_of (unlikePost Sample.cast Sample.bob Sample.post1) Sample.store = Some Conflict /\
  outcome_of (unlikePost Sample.cast Sample.bob Sample.post2) Sample.store = Some NotFound.
Proof.
  destruct (unlikePost_contract Sample.cast Sample.ann Sample.post1 Sample.store)
    as (_ & _ & Hliked).
  destruct (unlikePost_contract Sample.cast Sample.bob Sample.post1 Sample.store)
    as (_ & Hnot & _).
  destruct (unlikePost_contract Sample.cast Sample.bob Sample.post2 Sample.store)
    as (Habsent & _ & _).
  split; [|split].
  - destruct (Hliked Sample.post1 Sample.hello) as (Hr & _).
    + vm_compute. reflexivity.
    + left. reflexivity.
    + exact Hr.
  - apply (Hnot Sample.post1 Sample.hello).
    + vm_compute. reflexivity.
    + intros [H|[]]. discriminate H.
  - apply Habsent. vm_compute. reflexivity.
Defined.

(** X2: once an unlike has succeeded, a second unlike by the same user
    is refused with 400 Conflict and changes nothing, and a like by that
    user is accepted again. *)
Theorem unlike_twice_conflict cast caller postId fresh d id p :
  lookup_post cast d postId = Some (id, p) ->
  outcome_of (unlikePost cast caller postId) d = Some Success ->
  let d1 := db_after (unlikePost cast caller postId) d in
  outcome_of (unlikePost cast caller postId) d1 = Some Conflict /\
  db_after (unlikePost cast caller postId) d1 = d1 /\
  outcome_of (likePost cast caller postId fresh) d1 = Some Success.
Proof.
  intros Hl Hs d1.
  assert (Hin : In caller (likers p)).
  { destruct (in_dec string_dec caller (likers p)) as [Hin|Hn]; [done|].
    unfold outcome_of, response in Hs. erewrite unlikePost_not_liked in Hs by done.
    discriminate Hs. }
  set (rest := List.filter (fun l => negb (String.eqb (l_user l) caller)) (p_likes p)).
  assert (Hd1 : d1 = db_with_posts d (<[id := with_likes p rest]> (posts d))).
  { unfold d1, db_after. by erewrite unlikePost_liked. }
  assert (Hl1 : lookup_post cast d1 postId = Some (id, with_likes p rest)).
  { apply lookup_post_Some in Hl as [Hc _]. apply lookup_post_Some.
    split; [done|]. rewrite Hd1. apply lookup_insert_eq. }
  assert (Hn1 : ~ In caller (likers (with_likes p rest))).
  { cbn. intros (l & Hu & [_ Hl']%List.filter_In)%in_map_iff.
    apply negb_true_iff, String.eqb_neq in Hl'. done. }
  unfold outcome_of, response, db_after.
  rewrite (unlikePost_not_liked cast caller postId d1 _ _ Hl1 Hn1).
  rewrite (likePost_fresh cast caller postId fresh d1 _ _ Hl1 Hn1). done.
Qed.

Lemma unlike_twice_conflict_witness :
  let d1 := db_after (unlikePost Sample.cast Sample.ann Sample.post1) Sample.store in
  outcome_of (unlikePost Sample.cast Sample.ann Sample.post1) d1 = Some Conflict /\
  outcome_of (likePost Sample.cast Sample.ann Sample.post1 "l5") d1 = Some Success.
Proof.
  destruct (unlike_twice_conflict Sample.cast Sample.ann Sample.post1 "l5" Sample.store
              Sample.post1 Sample.hello) as (H1 & _ & H2).
  - vm_compute. reflexivity.
  - vm_compute. reflexivity.
  - split; [exact H1 | exact H2].
Defined.

(** ** getPost, deletePost, createPost *)

Lemma getPost_run cast postId d :
  run (getPost cast postId) d
  = (mkWorld d
       (Some match lookup_post cast d postId with
             | Some (_, p) => json 200 (BPost p)
             | None => json 404 (BMsg "Post not found")
             end) [] [QPostFindById postId], inr tt).
Proof.
  unfold getPost, lookup_post; unfold_handler.
  destruct (cast postId) as [id|]; cbn; [|done]. by destruct (posts d !! id).
Qed.

Lemma deletePost_owner_run cast postId d id p :
  lookup_post cast d postId = Some (id, p) ->
  run (deletePost cast (p_user p) postId) d
  = (mkWorld (db_with_posts d (delete id (posts d)))
       (Some (json 200 (BMsg "Post is removed"))) [] [QPostFindById postId; QPostRemove id],
     inr tt).
Proof.
  intros [Hc Hp]%lookup_post_Some.
  unfold deletePost; unfold_handler. rewrite Hc; cbn. rewrite Hp; cbn.
  by rewrite String.eqb_refl.
Qed.

(** X3: the owner of a post can delete it.  The answer is 200, the post
    is gone (getPost on the same parameter then answers 404) and every
    other post is stored as before. *)
Theorem deletePost_by_owner cast postId d id p :
  lookup_post cast d postId = Some (id, p) ->
  let h := deletePost cast (p_user p) postId in
  response h d = Some (json 200 (BMsg "Post is removed")) /\
  posts (db_after h d) !! id = None /\
  (forall id', id' <> id -> posts (db_after h d) !! id' = posts d !! id') /\
  users (db_after h d) = users d /\ profiles (db_after h d) = profiles d /\
  response (getPost cast postId) (db_after h d) = Some (json 404 (BMsg "Post not found")).
Proof.
  intros Hl h. unfold response, db_after, h. rewrite getPost_run.
  rewrite (deletePost_owner_run _ _ _ _ _ Hl). cbn [fst db sent users profiles posts db_with_posts].
  split; [done|]. split; [apply lookup_delete_eq|].
  split; [by intros id' Hne; apply lookup_delete_ne|]. do 2 (split; [done|]).
  unfold lookup_post. apply lookup_post_Some in Hl as [-> _]. cbn.
  by rewrite lookup_delete_eq.
Qed.

Lemma deletePost_by_owner_witness :
  let h := deletePost Sample.cast Sample.ann Sample.post1 in
  response h Sample.store = Some (json 200 (BMsg "Post is removed")) /\
  response (getPost Sample.cast Sample.post1) (db_after h Sample.store)
  = Some (json 404 (BMsg "Post not found")).
Proof.
  destruct (deletePost_by_owner Sample.cast Sample.post1 Sample.store Sample.post1
              Sample.hello) as (H1 & _ & _ & _ & _ & H2).
  - vm_compute. reflexivity.
  - split; [exact H1 | exact H2].
Defined.




(** ** addComment, deleteComment *)

Lemma addComment_run_ok cast caller postId text fresh now d id p u :
  not_isEmpty text = true ->
  lookup_post cast d postId = Some (id, p) ->
  users d !! caller = Some u ->
  let c := mkComment fresh caller text (u_name u) (u_avatar u) now in
  run (addComment cast caller postId text fresh now) d
  = (mkWorld (db_with_posts d (<[id := with_comments p (c :: p_comments p)]> (posts d)))
       (Some (json 200 (BComments (c :: p_comments p)))) []
       [QUserFindById caller; QPostFindById postId; QPostSave id], inr tt).
Proof.
  intros Hv [Hc Hp]%lookup_post_Some Hu. unfold addComment. rewrite Hv.
  cbn [validationResult List.filter List.map fst negb isEmpty].
  unfold_handler. rewrite Hc; cbn. by rewrite Hp, Hu.
Qed.



Lemma deleteComment_owner_run cast postId commentId d id p c :
  lookup_post cast d postId = Some (id, p) ->
  comment_by_id p commentId = Some c ->
  let rest := List.filter (fun c' => negb (String.eqb (c_id c') commentId)) (p_comments p) in
  run (deleteComment cast (c_user c) postId commentId) d
  = (mkWorld (db_with_posts d (<[id := with_comments p rest]> (posts d)))
       (Some (json 200 (BComments rest))) [] [QPostFindById postId; QPostSave id], inr tt).
Proof.
  intros [Hc Hp]%lookup_post_Some Hfind. unfold comment_by_id in Hfind.
  unfold deleteComment; unfold_handler. rewrite Hc; cbn. rewrite Hp; cbn.
  rewrite Hfind. by rewrite String.eqb_refl.
Qed.

(** X6: deleteComment has no check that the post exists: a parameter
    that refers to no post is answered 500.  On an existing post, an id
    that no comment carries is answered 404 and nothing changes; the owner
    of the comment gets 200 with the comments that do not carry the id,
    which are stored, the rest of the post unchanged. *)
Theorem deleteComment_contract cast postId commentId d :
  (forall caller,
   lookup_post cast d postId = None ->
   response (deleteComment cast caller postId commentId) d = Some (send 500 "Server Error") /\
   outcome_of (deleteComment cast caller postId commentId) d = Some UnexpectedError /\
   db_after (deleteComment cast caller postId commentId) d = d) /\
  (forall caller id p,
   lookup_post cast d postId = Some (id, p) ->
   (forall c, In c (p_comments p) -> c_id c <> commentId) ->
   response (deleteComment cast caller postId commentId) d
   = Some (json 404 (BMsg "Comment does not exist")) /\
   db_after (deleteComment cast caller postId commentId) d = d) /\
  (forall id p c,
   lookup_post cast d postId = Some (id, p) ->
   comment_by_id p commentId = Some c ->
   let h := deleteComment cast (c_user c) postId commentId in
   let rest := List.filter (fun c' => negb (String.eqb (c_id c') commentId)) (p_comments p) in
   response h d = Some (json 200 (BComments rest)) /\
   lookup_post cast (db_after h d) postId = Some (id, with_comments p rest) /\
   (forall c', In c' rest <-> In c' (p_comments p) /\ c_id c' <> commentId)).
Proof.
  unfold outcome_of, response, db_after. split; [|split].
  - intros caller [Hc | (id & Hc & Hp)]%lookup_post_None;
      unfold deleteComment; unfold_handler; rewrite Hc; cbn; [done|]. by rewrite Hp.
  - intros caller id p [Hc Hp]%lookup_post_Some Hnone.
    unfold deleteComment; unfold_handler. rewrite Hc; cbn. rewrite Hp; cbn.
    destruct (List.find _ _) as [c|] eqn:Hfind; [|done].
    apply List.find_some in Hfind as [Hin Heq]. apply String.eqb_eq in Heq.
    by destruct (Hnone c Hin).
  - intros id p c Hl Hfind. cbn zeta.
    rewrite (deleteComment_owner_run _ _ _ _ _ _ _ Hl Hfind). cbn [fst db sent].
    split; [done|]. split.
    + apply lookup_post_Some in Hl as [Hc _]. apply lookup_post_Some. split; [done|].
      apply lookup_insert_eq.
    + intros c'. rewrite List.filter_In. by rewrite negb_true_iff, String.eqb_neq.
Qed.

Lemma deleteComment_contract_witness :
  response (deleteComment Sample.cast Sample.bob Sample.post2 "c1") Sample.store
  = Some (send 500 "Server Error") /\
  response (deleteComment Sample.cast Sample.bob Sample.post1 "c7") Sample.store
  = Some (json 404 (BMsg "Comment does not exist")) /\
  response (deleteComment Sample.cast Sample.bob Sample.post1 "c1") Sample.store
  = Some (json 200 (BComments [])).
Proof.
  destruct (deleteComment_contract Sample.cast Sample.post2 "c1" Sample.store)
    as (Habsent & _ & _).
  destruct (deleteComment_contract Sample.cast Sample.post1 "c7" Sample.store)
    as (_ & Hmissing & _).
  destruct (deleteComment_contract Sample.cast Sample.post1 "c1" Sample.store)
    as (_ & _ & Howner).
  split; [|split].
  - apply Habsent. vm_compute. reflexivity.
  - apply (Hmissing Sample.bob Sample.post1 Sample.hello).
    + vm_compute. reflexivity.
    + intros c [<-|[]]. discriminate.
  - apply (Howner Sample.post1 Sample.hello Sample.comment1).
    + vm_compute. reflexivity.
    + reflexivity.
Defined.

(** X7: a comment added and then deleted by its author leaves the store
    exactly as it was, provided the id of the new comment is not the id of
    an older comment of the post. *)
Theorem addComment_deleteComment_roundtrip cast caller postId text fresh now d id p u :
  not_isEmpty text = true ->
  lookup_post cast d postId = Some (id, p) ->
  users d !! caller = Some u ->
  ~ In fresh (List.map c_id (p_comments p)) ->
  let d1 := db_after (addComment cast caller postId text fresh now) d in
  response (deleteComment cast caller postId fresh) d1
  = Some (json 200 (BComments (p_comments p))) /\
  db_after (deleteComment cast caller postId fresh) d1 = d.
Proof.
  intros Hv Hl Hu Hfresh d1.
  set (c := mkComment fresh caller text (u_name u) (u_avatar u) now).
  set (p1 := with_comments p (c :: p_comments p)).
  assert (Hd1 : d1 = db_with_posts d (<[id := p1]> (posts d))).
  { unfold d1, db_after. by rewrite (addComment_run_ok _ _ _ _ _ _ _ _ _ _ Hv Hl Hu). }
  assert (Hl1 : lookup_post cast d1 postId = Some (id, p1)).
  { apply lookup_post_Some in Hl as [Hc _]. apply lookup_post_Some.
    split; [done|]. rewrite Hd1. apply lookup_insert_eq. }
  assert (Hfind : comment_by_id p1 fresh = Some c).
  { unfold comment_by_id. cbn. by rewrite String.eqb_refl. }
  pose proof (deleteComment_owner_run cast postId fresh d1 id p1 c Hl1 Hfind) as Hrun.
  cbn zeta in Hrun. change (c_user c) with caller in Hrun.
  assert (Hrest : List.filter (fun c' => negb (String.eqb (c_id c') fresh)) (p_comments p1)
                  = p_comments p).
  { cbn. rewrite String.eqb_refl. cbn. apply filter_all. intros c' Hin.
    apply negb_true_iff, String.eqb_neq. intros Heq. apply Hfresh. rewrite <- Heq.
    by apply in_map. }
  rewrite Hrest in Hrun.
  assert (Hback : db_with_posts d1 (<[id := with_comments p1 (p_comments p)]> (posts d1)) = d).
  { rewrite Hd1. unfold db_with_posts, p1. cbn. rewrite insert_insert_eq.
    change (with_comments (with_comments p _) (p_comments p)) with
      (with_comments p (p_comments p)).
    rewrite with_comments_same.
    apply lookup_post_Some in Hl as [_ Hp]. rewrite (insert_id _ _ _ Hp). apply db_eta. }
  rewrite Hback in Hrun. unfold response, db_after. by rewrite Hrun.
Qed.

Lemma addComment_deleteComment_roundtrip_witness :
  db_after (deleteComment Sample.cast Sample.ann Sample.post1 "c2")
    (db_after (addComment Sample.cast Sample.ann Sample.post1 (Some "hi") "c2" 6) Sample.store)
  = Sample.store.
Proof.
  apply (addComment_deleteComment_roundtrip Sample.cast Sample.ann Sample.post1 (Some "hi")
           "c2" 6 Sample.store Sample.post1 Sample.hello
           (mkUser "Ann" "ann@example.org" "hash" "a.png")).
  - reflexivity.
  - vm_compute. reflexivity.
  - vm_compute. reflexivity.
  - intros [H|[]]. discriminate H.
Defined.

(** * Properties of all routes *)

Ltac split_cases :=
  repeat match goal with
         | |- context [match ?x with _ => _ end] =>
             lazymatch x with
             | context [match _ with _ => _ end] => fail
             | _ => destruct x eqn:?
             end;
             cbn [fst snd db sent outbound queries kind_ObjectId app]
         end.

Ltac ends_well_leaf :=
  cbn [fst snd db sent status json send];
  first [ split; [cbn; auto 10 | first [left; reflexivity | right; reflexivity]]
        | split; reflexivity ].

Ltac ends_well_tac :=
  unfold ends_well; unfold_handler; split_cases; ends_well_leaf.

Lemma createPost_ends_well caller text fresh now d :
  ends_well [200; 400; 401; 404; 500] false (createPost caller text fresh now) d.
Proof. unfold createPost. cbn zeta. ends_well_tac. Qed.

Lemma getPost_ends_well cast postId d :
  ends_well [200; 400; 401; 404; 500] false (getPost cast postId) d.
Proof. unfold getPost. ends_well_tac. Qed.

Lemma deletePost_ends_well cast caller postId d :
  ends_well [200; 400; 401; 404; 500] false (deletePost cast caller postId) d.
Proof. unfold deletePost. ends_well_tac. Qed.

Lemma likePost_ends_well cast caller postId fresh d :
  ends_well [200; 400; 401; 404; 500] false (likePost cast caller postId fresh) d.
Proof. unfold likePost. ends_well_tac. Qed.

Lemma unlikePost_ends_well cast caller postId d :
  ends_well [200; 400; 401; 404; 500] false (unlikePost cast caller postId) d.
Proof. unfold unlikePost. ends_well_tac. Qed.

Lemma addComment_ends_well cast caller postId text fresh now d :
  ends_well [200; 400; 401; 404; 500] false (addComment cast caller postId text fresh now) d.
Proof. unfold addComment. cbn zeta. ends_well_tac. Qed.

Lemma deleteComment_ends_well cast caller postId commentId d :
  ends_well [200; 400; 401; 404; 500] false (deleteComment cast caller postId commentId) d.
Proof. unfold deleteComment. ends_well_tac. Qed.

Lemma getMyProfile_ends_well caller d :
  ends_well [200; 400; 500] false (getMyProfile caller) d.
Proof. unfold getMyProfile. ends_well_tac. Qed.

Lemma getProfileByUser_ends_well cast userId d :
  ends_well [200; 400; 500] false (getProfileByUser cast userId) d.
Proof. unfold getProfileByUser. ends_well_tac. Qed.

Lemma deleteMyProfile_ends_well caller d :
  ends_well [200; 400; 500] false (deleteMyProfile caller) d.
Proof. unfold deleteMyProfile. ends_well_tac. Qed.

Lemma addExperience_ends_well schemaOk caller b fresh d :
  ends_well [200; 400; 500] false (addExperience schemaOk caller b fresh) d.
Proof. unfold addExperience. cbn zeta. ends_well_tac. Qed.

Lemma removeExperience_ends_well caller expId d :
  ends_well [200; 400; 500] false (removeExperience caller expId) d.
Proof. unfold removeExperience. ends_well_tac. Qed.

Lemma removeEducation_ends_well caller eduId d :
  ends_well [200; 400; 500] false (removeEducation caller eduId) d.
Proof. unfold removeEducation. ends_well_tac. Qed.

Lemma getGithubRepos_ends_well token upstream username d :
  ends_well [200; 404] false (getGithubRepos token upstream username) d.
Proof. unfold getGithubRepos, axios_get. ends_well_tac. Qed.

Lemma education_complete_no_errors b :
  education_complete b = true -> education_errors b = [].
Proof.
  unfold education_complete, education_errors.
  intros [[[-> ->]%andb_prop ->]%andb_prop ->]%andb_prop. reflexivity.
Qed.

Lemma addEducation_ends_well schemaOk caller b fresh d :
  education_complete b = true ->
  ends_well [200; 400; 500] false (addEducation schemaOk caller b fresh) d.
Proof.
  intros Hb. unfold addEducation. cbn zeta. fold (education_errors b).
  rewrite (education_complete_no_errors b Hb). cbn [isEmpty negb]. ends_well_tac.
Qed.

Ltac normalizeField_split :=
  match goal with
  | |- context [normalizeField ?n ?v ?w] =>
      let Hr := fresh "Hr" in
      destruct (normalizeField_cases n v w) as [[? Hr]|Hr]; rewrite !Hr; clear Hr;
      cbn [fst snd sent db]
  end.

Lemma upsertProfile_ends_well normalize notEmptyArray caller b fresh now d :
  ends_well [200; 400; 500] true (upsertProfile normalize notEmptyArray caller b fresh now) d.
Proof.
  unfold ends_well, upsertProfile, run. cbn zeta.
  destruct (negb _); [unfold reply; cbn; auto 10|].
  unfold bind. normalizeField_split; [|done].
  destruct (pb_skills b) as [skills|]; cbn [deref]; unfold ret, throw; cbn [fst snd sent db];
    [|done].
  do 5 (normalizeField_split; [|done]).
  unfold Profile_findOneAndUpdate. unfold_handler. split_cases. all: ends_well_leaf.
Qed.

Lemma normalizeField_eq normalize v w :
  normalizeField normalize v w
  = if url_ok normalize v then (w, inr (normalizeField_value normalize v))
    else (w, inl InvalidUrl).
Proof.
  unfold normalizeField, url_ok, normalizeField_value. destruct v as [s|]; [|done].
  destruct (String.eqb s ""); [done|]. by destruct (normalize s).
Qed.

Lemma upsertProfile_regular_ends_well normalize notEmptyArray caller b fresh now d :
  urls_ok normalize b = true ->
  ends_well [200; 400; 500] false (upsertProfile normalize notEmptyArray caller b fresh now) d.
Proof.
  unfold urls_ok.
  intros [[[[[Hw Hy]%andb_prop Ht]%andb_prop Hf]%andb_prop Hi]%andb_prop Hl]%andb_prop.
  unfold ends_well, upsertProfile, run. cbn zeta.
  destruct (negb (isEmpty _)) eqn:Hv; [unfold reply; cbn; auto 10|].
  unfold bind. rewrite normalizeField_eq, Hw. cbn [fst snd sent db].
  destruct (pb_skills b) as [skills|] eqn:Hs; cbn [deref]; unfold ret, throw;
    cbn [fst snd sent db].
  - rewrite normalizeField_eq, Hy. cbn [fst snd sent db].
    rewrite normalizeField_eq, Ht. cbn [fst snd sent db].
    rewrite normalizeField_eq, Hf. cbn [fst snd sent db].
    rewrite normalizeField_eq, Hi. cbn [fst snd sent db].
    rewrite normalizeField_eq, Hl. cbn [fst snd sent db].
    unfold Profile_findOneAndUpdate. unfold_handler. split_cases. all: ends_well_leaf.
  - exfalso. revert Hv. cbn. by destruct (not_isEmpty (pb_status b)).
Qed.


Lemma handle_ends_well E r d :
  (forall caller b fresh, r = AddEducation caller b fresh -> education_complete b = true) ->
  ends_well (status_codes r) (negb (regular E r)) (handle E r) d.
Proof.
  intros Hedu. destruct r; cbn [handle status_codes posts_route github_route regular negb].
  - apply createPost_ends_well.
  - apply getPost_ends_well.
  - apply deletePost_ends_well.
  - apply likePost_ends_well.
  - apply unlikePost_ends_well.
  - apply addComment_ends_well.
  - apply deleteComment_ends_well.
  - apply getMyProfile_ends_well.
  - destruct (urls_ok (env_normalize E) b) eqn:Hu; cbn [negb].
    + by apply upsertProfile_regular_ends_well.
    + apply upsertProfile_ends_well.
  - apply getProfileByUser_ends_well.
  - apply deleteMyProfile_ends_well.
  - apply addExperience_ends_well.
  - apply removeExperience_ends_well.
  - rewrite (Hedu _ _ _ eq_refl). by apply addEducation_ends_well, (Hedu caller b fresh).
  - apply removeEducation_ends_well.
  - apply getGithubRepos_ends_well.
Qed.

(** X8: a route writes to the store only on a request it answers with
    200.  Whatever the request and the store, after any other answer, or
    after an exception, the store is what it was.  The education route on
    a body that fails validation is the one exception. *)
Theorem store_changes_only_with_200 E r d :
  (forall caller b fresh, r = AddEducation caller b fresh -> education_complete b = true) ->
  db_after (handle E r) d = d \/
  exists b, response (handle E r) d = Some (json 200 b).
Proof.
  intros Hedu. pose proof (handle_ends_well E r d Hedu) as Hend.
  unfold ends_well in Hend. unfold db_after, response.
  destruct (snd (run (handle E r) d)), (sent (fst (run (handle E r) d))) as [[st b]|];
    try done.
  - left. apply Hend.
  - destruct Hend as [_ [Hst|Hdb]]; [|by left]. right. exists b. cbn in Hst. by rewrite Hst.
Qed.

Lemma store_changes_only_with_200_witness :
  db_after (handle Sample.env (DeletePost Sample.bob Sample.post1)) Sample.store = Sample.store.
Proof.
  destruct (store_changes_only_with_200 Sample.env (DeletePost Sample.bob Sample.post1)
              Sample.store) as [Hsame|[b Hb]].
  - intros caller b fresh. discriminate.
  - exact Hsame.
  - vm_compute in Hb. discriminate Hb.
Defined.





(** X11: the GET routes never change the store. *)
Theorem get_routes_read_only E r d :
  get_route r = true -> db_after (handle E r) d = d.
Proof.
  intros Hget. destruct r; try discriminate Hget; cbn [handle]; unfold db_after.
  - unfold getPost. unfold_handler. split_cases; reflexivity.
  - unfold getMyProfile. unfold_handler. split_cases; reflexivity.
  - unfold getProfileByUser. unfold_handler. split_cases; reflexivity.
  - unfold getGithubRepos, axios_get. unfold_handler. split_cases; reflexivity.
Qed.

Lemma get_routes_read_only_witness :
  db_after (handle Sample.env (GetMyProfile Sample.ann)) Sample.store = Sample.store.
Proof.
  apply (get_routes_read_only Sample.env (GetMyProfile Sample.ann) Sample.store).
  reflexivity.
Defined.

(** * More of the profile router *)

(** ** upsertProfile *)

Lemma upsertProfile_run normalize notEmptyArray caller b fresh now d :
  run (upsertProfile normalize notEmptyArray caller b fresh now) d
  = if negb (isEmpty (upsert_errors notEmptyArray b))
    then (mkWorld d (Some (json 400 (BErrors (upsert_errors notEmptyArray b)))) [] [], inr tt)
    else if urls_ok normalize b
    then match profile_of d caller with
         | Some p =>
             (mkWorld
                (mkDb (users d)
                   (update_first (fun q => String.eqb (pr_user q) caller)
                      (upsert_fields normalize b) (profiles d))
                   (posts d))
                (Some (json 200 (BProfile (upsert_fields normalize b p)))) []
                [QProfileFindOneAndUpdate caller], inr tt)
         | None =>
             (mkWorld
                (mkDb (users d) (profiles d ++ [upsert_new normalize caller b fresh now])
                   (posts d))
                (Some (json 200 (BProfile (upsert_new normalize caller b fresh now)))) []
                [QProfileFindOneAndUpdate caller], inr tt)
         end
    else (mkWorld d None [] [], inl InvalidUrl).
Proof.
  unfold upsertProfile, run. cbn zeta. fold (upsert_errors notEmptyArray b).
  destruct (negb (isEmpty _)) eqn:Hv; [done|].
  assert (Hs : exists skills, pb_skills b = Some skills).
  { revert Hv. unfold upsert_errors. cbn.
    destruct (pb_skills b); [by eauto|]. by destruct (not_isEmpty (pb_status b)). }
  destruct Hs as [skills Hs].
  unfold urls_ok, bind. rewrite normalizeField_eq.
  destruct (url_ok normalize (pb_website b)); cbn [fst snd sent db andb]; [|done].
  rewrite Hs. cbn [deref]. unfold ret. cbn [fst snd sent db].
  rewrite normalizeField_eq.
  destruct (url_ok normalize (pb_youtube b)); cbn [fst snd sent db andb]; [|done].
  rewrite normalizeField_eq.
  destruct (url_ok normalize (pb_twitter b)); cbn [fst snd sent db andb]; [|done].
  rewrite normalizeField_eq.
  destruct (url_ok normalize (pb_facebook b)); cbn [fst snd sent db andb]; [|done].
  rewrite normalizeField_eq.
  destruct (url_ok normalize (pb_instagram b)); cbn [fst snd sent db andb]; [|done].
  rewrite normalizeField_eq.
  destruct (url_ok normalize (pb_linkedin b)); cbn [fst snd sent db andb]; [|done].
  unfold Profile_findOneAndUpdate, profile_of, upsert_fields, upsert_new, upsert_skills,
    upsert_social. rewrite Hs. unfold_handler.
  by destruct (List.find _ (profiles d)).
Qed.

(** X12: POST api/profile validates before anything else.  A request
    without status or without skills is answered 400 with the message of
    each failed check; no URL is normalized, no model is called and
    nothing is stored. *)
Theorem upsertProfile_validation normalize notEmptyArray caller b fresh now d :
  not_isEmpty (pb_status b) = false \/
  skills_not_isEmpty notEmptyArray (pb_skills b) = false ->
  let h := upsertProfile normalize notEmptyArray caller b fresh now in
  exists errors,
    response h d = Some (json 400 (BErrors errors)) /\
    (In "Status is required" errors <-> not_isEmpty (pb_status b) = false) /\
    (In "Skills is required" errors <->
     skills_not_isEmpty notEmptyArray (pb_skills b) = false) /\
    db_after h d = d /\ trace h d = [] /\ escaped h d = None.
Proof.
  intros Hbad h. exists (upsert_errors notEmptyArray b).
  unfold response, db_after, trace, escaped, h. rewrite upsertProfile_run.
  unfold upsert_errors.
  destruct (not_isEmpty (pb_status b)), (skills_not_isEmpty notEmptyArray (pb_skills b));
    cbn; try (destruct Hbad; discriminate); intuition (try discriminate; auto).
Qed.

Lemma upsertProfile_validation_witness :
  response
    (upsertProfile (env_normalize Sample.env) (env_notEmptyArray Sample.env) Sample.bob
       (mkProfileBody None (Some (SkillsString [])) None None None None None (Some "Dev")
          None None None None) "610000000000000000000002" 9) Sample.store
  = Some (json 400 (BErrors ["Skills is required"])).
Proof.
  destruct (upsertProfile_validation (env_normalize Sample.env)
              (env_notEmptyArray Sample.env) Sample.bob
              (mkProfileBody None (Some (SkillsString [])) None None None None None
                 (Some "Dev") None None None None)
              "610000000000000000000002" 9 Sample.store) as (errors & Hr & _).
  - right. reflexivity.
  - vm_compute in Hr. injection Hr as <-. reflexivity.
Defined.

(** X13: the URL fields are normalized outside the [try] block.  When
    normalize-url throws on the website or on a social link of a request
    that passed validation, no answer is sent, the exception leaves the
    handler, no model was called and nothing is stored. *)
Theorem upsertProfile_invalid_url normalize notEmptyArray caller b fresh now d :
  not_isEmpty (pb_status b) = true ->
  skills_not_isEmpty notEmptyArray (pb_skills b) = true ->
  urls_ok normalize b = false ->
  let h := upsertProfile normalize notEmptyArray caller b fresh now in
  response h d = None /\ escaped h d = Some InvalidUrl /\
  db_after h d = d /\ trace h d = [].
Proof.
  intros Hst Hsk Hurl h. unfold response, db_after, trace, escaped, h.
  rewrite upsertProfile_run. unfold upsert_errors. rewrite Hst, Hsk, Hurl. done.
Qed.

Lemma upsertProfile_invalid_url_witness :
  let h :=
    upsertProfile (fun _ => None) (env_notEmptyArray Sample.env) Sample.bob Sample.form
      "610000000000000000000002" 9 in
  response h Sample.store = None /\ db_after h Sample.store = Sample.store.
Proof.
  destruct (upsertProfile_invalid_url (fun _ => None) (env_notEmptyArray Sample.env)
              Sample.bob Sample.form "610000000000000000000002" 9 Sample.store)
    as (H1 & _ & H2 & _); try reflexivity.
  split; [exact H1 | exact H2].
Defined.

Lemma or_else_twice {A} (new old : option A) : or_else new (or_else new old) = or_else new old.
Proof. by destruct new. Qed.

Lemma or_else_same {A} (o : option A) : or_else o o = o.
Proof. by destruct o. Qed.

Lemma set_fields_twice b website skills social p :
  set_fields b website skills social (set_fields b website skills social p)
  = set_fields b website skills social p.
Proof. unfold set_fields. cbn. by rewrite !or_else_twice. Qed.

Lemma upsert_fields_new normalize caller b fresh now :
  upsert_fields normalize b (upsert_new normalize caller b fresh now)
  = upsert_new normalize caller b fresh now.
Proof. unfold upsert_fields, upsert_new, set_fields. cbn. by rewrite !or_else_same. Qed.

Lemma update_first_fixed (f : Profile -> bool) g ps p :
  List.find f ps = Some p -> g p = p -> update_first f g ps = ps.
Proof.
  intros Hfind Hg. induction ps as [|q ps IH]; [done|]. cbn [List.find update_first] in *.
  destruct (f q).
  - injection Hfind as ->. by rewrite Hg.
  - f_equal. by apply IH.
Qed.

(** X14: POST api/profile is idempotent.  Sending the same body again,
    whatever ids and dates the second request would use, gives the same
    answer and leaves the store as the first request left it: no second
    profile is created. *)
Theorem upsertProfile_idempotent normalize notEmptyArray caller b fresh now fresh' now' d :
  let h := upsertProfile normalize notEmptyArray caller b fresh now in
  let h' := upsertProfile normalize notEmptyArray caller b fresh' now' in
  response h' (db_after h d) = response h d /\
  db_after h' (db_after h d) = db_after h d.
Proof.
  cbn zeta. unfold response, db_after. rewrite !upsertProfile_run.
  destruct (negb _); [done|]. destruct (urls_ok normalize b); [|done].
  set (mine := fun q => String.eqb (pr_user q) caller).
  set (g := upsert_fields normalize b).
  destruct (profile_of d caller) as [p|] eqn:Hp; cbn [fst db sent].
  - assert (Hfound : profile_of
                       (mkDb (users d) (update_first mine g (profiles d)) (posts d)) caller
                     = Some (g p)).
    { unfold profile_of. cbn. apply find_update_first; [done|].
      unfold mine. cbn. by apply List.find_some in Hp as [_ ?]. }
    rewrite Hfound. cbn [fst db sent users profiles posts].
    unfold g at 1 4, upsert_fields. rewrite set_fields_twice. fold (upsert_fields normalize b).
    fold g. split; [done|]. f_equal.
    apply update_first_fixed with (p := g p); [exact Hfound|].
    unfold g, upsert_fields. apply set_fields_twice.
  - assert (Hfound : profile_of
                       (mkDb (users d) (profiles d ++ [upsert_new normalize caller b fresh now])
                          (posts d)) caller
                     = Some (upsert_new normalize caller b fresh now)).
    { unfold profile_of. cbn. apply find_app_new; [done|]. cbn. apply String.eqb_refl. }
    rewrite Hfound. cbn [fst db sent users profiles posts].
    unfold g. rewrite upsert_fields_new. split; [done|]. f_equal.
    apply update_first_fixed with (p := upsert_new normalize caller b fresh now);
      [exact Hfound|apply upsert_fields_new].
Qed.



(** ** The profiles collection stays well formed *)

Lemma replace_doc_ids p ps : List.map pr_id (replace_doc p ps) = List.map pr_id ps.
Proof.
  induction ps as [|q ps IH]; [done|]. cbn [replace_doc].
  destruct (String.eqb_spec (pr_id q) (pr_id p)) as [Heq|Hne]; cbn [List.map].
  - by rewrite Heq.
  - by rewrite IH.
Qed.

Lemma replace_doc_users p p' ps :
  List.NoDup (List.map pr_id ps) -> In p ps ->
  pr_id p' = pr_id p -> pr_user p' = pr_user p ->
  List.map pr_user (replace_doc p' ps) = List.map pr_user ps.
Proof.
  intros Hnd Hin Hid Hu. induction ps as [|q ps IH]; [done|].
  cbn [List.map] in Hnd. apply List.NoDup_cons_iff in Hnd as [Hq Hnd].
  cbn [replace_doc]. destruct (String.eqb_spec (pr_id q) (pr_id p')) as [Heq|Hne].
  - cbn [List.map]. f_equal. destruct Hin as [->|Hin]; [done|].
    destruct Hq. rewrite Heq, Hid. by apply in_map.
  - cbn [List.map]. f_equal. destruct Hin as [->|Hin]; [by destruct Hne|]. by apply IH.
Qed.

Lemma profiles_wf_replace d us posts' u p p' :
  profiles_wf d ->
  List.find (fun q => String.eqb (pr_user q) u) (profiles d) = Some p ->
  pr_id p' = pr_id p -> pr_user p' = pr_user p ->
  profiles_wf (mkDb us (replace_doc p' (profiles d)) posts').
Proof.
  intros [Hids Hus] Hfind Hid Hu. apply List.find_some in Hfind as [Hin _].
  unfold profiles_wf, profile_ids_unique, one_profile_per_user. cbn.
  by rewrite replace_doc_ids, (replace_doc_users p).
Qed.

Lemma NoDup_map_remove_first {B} (f : Profile -> B) g ps :
  List.NoDup (List.map f ps) -> List.NoDup (List.map f (remove_first g ps)).
Proof.
  induction ps as [|q ps IH]; [done|]. cbn [List.map remove_first].
  intros [Hq Hnd]%List.NoDup_cons_iff. destruct (g q); [done|].
  cbn [List.map]. apply List.NoDup_cons; [|by apply IH].
  intros Hin. apply Hq. clear -Hin. induction ps as [|q' ps IH]; [done|].
  cbn [List.map remove_first In] in *. destruct (g q'); [by right|].
  destruct Hin as [?|Hin]; [by left|right; by apply IH].
Qed.

Lemma update_first_map {B} (f : Profile -> B) mine g ps :
  (forall q, f (g q) = f q) ->
  List.map f (update_first mine g ps) = List.map f ps.
Proof.
  intros Hg. induction ps as [|q ps IH]; [done|]. cbn [update_first].
  destruct (mine q); cbn [List.map]; [by rewrite Hg|by rewrite IH].
Qed.

Lemma find_none_not_in user ps :
  List.find (fun q => String.eqb (pr_user q) user) ps = None ->
  ~ In user (List.map pr_user ps).
Proof.
  intros Hfind (q & Hu & Hin)%in_map_iff.
  apply (List.find_none _ _ Hfind) in Hin. rewrite Hu, String.eqb_refl in Hin. done.
Qed.

Lemma NoDup_snoc {B} (l : list B) x : List.NoDup l -> ~ In x l -> List.NoDup (l ++ [x]).
Proof.
  intros Hnd Hx. apply List.NoDup_rev in Hnd. rewrite <- (rev_involutive (l ++ [x])).
  apply List.NoDup_rev. rewrite rev_app_distr. cbn. apply List.NoDup_cons; [|done].
  by rewrite <- in_rev.
Qed.

Ltac profiles_kept Hwf :=
  unfold db_after; unfold_handler; split_cases;
  first [ exact Hwf
        | eapply profiles_wf_replace; [exact Hwf | eassumption | reflexivity | reflexivity] ].

(** X16: every route keeps the profiles collection well formed: document
    ids stay unique and no user gets a second profile.  The id that
    Mongoose gives a profile inserted by an upsert has to be new. *)
Theorem profiles_wf_preserved E r d :
  profiles_wf d ->
  (forall caller b fresh now,
      r = UpsertProfile caller b fresh now -> ~ In fresh (List.map pr_id (profiles d))) ->
  profiles_wf (db_after (handle E r) d).
Proof.
  intros Hwf Hfresh. destruct r; cbn [handle].
  - unfold createPost. cbn zeta. profiles_kept Hwf.
  - unfold getPost. profiles_kept Hwf.
  - unfold deletePost. profiles_kept Hwf.
  - unfold likePost. profiles_kept Hwf.
  - unfold unlikePost. profiles_kept Hwf.
  - unfold addComment. cbn zeta. profiles_kept Hwf.
  - unfold deleteComment. profiles_kept Hwf.
  - unfold getMyProfile. profiles_kept Hwf.
  - specialize (Hfresh _ _ _ _ eq_refl). unfold db_after. rewrite upsertProfile_run.
    destruct (negb _); [done|]. destruct (urls_ok _ b); [|done].
    destruct Hwf as [Hids Hus].
    unfold profiles_wf, profile_ids_unique, one_profile_per_user.
    destruct (profile_of d caller) as [p|] eqn:Hp; cbn.
    + by rewrite !update_first_map.
    + rewrite !map_app. cbn. split; apply NoDup_snoc; try done.
      by apply find_none_not_in.
  - unfold getProfileByUser. profiles_kept Hwf.
  - unfold db_after. rewrite deleteMyProfile_run. destruct Hwf as [Hids Hus].
    split; by apply NoDup_map_remove_first.
  - unfold addExperience. cbn zeta. profiles_kept Hwf.
  - unfold removeExperience. profiles_kept Hwf.
  - unfold addEducation. cbn zeta. profiles_kept Hwf.
  - unfold removeEducation. profiles_kept Hwf.
  - unfold getGithubRepos, axios_get. profiles_kept Hwf.
Qed.

Lemma profiles_wf_preserved_witness :
  profiles_wf
    (db_after
       (handle Sample.env (UpsertProfile Sample.bob Sample.form "610000000000000000000002" 9))
       Sample.store).
Proof.
  apply (profiles_wf_preserved Sample.env
           (UpsertProfile Sample.bob Sample.form "610000000000000000000002" 9) Sample.store).
  - split; apply List.NoDup_cons; try (intros []); constructor.
  - intros caller b fresh now [= _ _ <- _]. intros [H|[]]. discriminate H.
Defined.

(** ** addExperience, removeExperience *)

Lemma addExperience_run_valid schemaOk caller b fresh d :
  experience_complete b = true ->
  run (addExperience schemaOk caller b fresh) d
  = match profile_of d caller with
    | None => (mkWorld d (Some (send 500 "Server Error")) [] [QProfileFindOne caller], inr tt)
    | Some p =>
        if schemaOk (newExp b fresh)
        then
          let p' := with_experience p (newExp b fresh :: pr_experience p) in
          (mkWorld (mkDb (users d) (replace_doc p' (profiles d)) (posts d))
             (Some (json 200 (BProfile p'))) []
             [QProfileFindOne caller; QProfileSave (pr_id p)], inr tt)
        else
          (mkWorld d (Some (send 500 "Server Error")) []
             [QProfileFindOne caller; QProfileSave (pr_id p)], inr tt)
    end.
Proof.
  unfold experience_complete. intros [[Ht Hc]%andb_prop Hf]%andb_prop.
  unfold addExperience, profile_of, newExp. rewrite Ht, Hc, Hf.
  cbn [validationResult List.filter List.map fst negb isEmpty]. unfold_handler.
  destruct (List.find _ (profiles d)) as [p|]; cbn; [|done].
  by destruct (schemaOk _).
Qed.

(** X17: addExperience on a body with title, company and from.  Without
    a profile, or when the schema rejects the entry, the answer is 500 and
    nothing changes; otherwise the entry is stored in front of the other
    experience entries, the rest of the profile is unchanged, and the
    profile is answered with 200. *)
Theorem addExperience_contract schemaOk caller b fresh d :
  experience_complete b = true ->
  let h := addExperience schemaOk caller b fresh in
  (profile_of d caller = None ->
   response h d = Some (send 500 "Server Error") /\ db_after h d = d) /\
  (forall p, profile_of d caller = Some p -> schemaOk (newExp b fresh) = false ->
   response h d = Some (send 500 "Server Error") /\ db_after h d = d) /\
  (forall p, profile_of d caller = Some p -> schemaOk (newExp b fresh) = true ->
   profile_ids_unique d ->
   let p' := with_experience p (newExp b fresh :: pr_experience p) in
   response h d = Some (json 200 (BProfile p')) /\
   profile_of (db_after h d) caller = Some p' /\
   posts (db_after h d) = posts d /\ users (db_after h d) = users d).
Proof.
  intros Hb h. unfold response, db_after, h. rewrite (addExperience_run_valid _ _ _ _ _ Hb).
  split; [|split].
  - by intros ->.
  - by intros p -> ->.
  - intros p Hp -> Hids. rewrite Hp. cbn. split; [done|]. split; [|done].
    by apply (find_replace_doc _ _ p).
Qed.

Lemma addExperience_contract_witness :
  let b := mkExperienceBody (Some "Dev") (Some "Acme") None (Some "2020-01-01") None None None in
  response (addExperience (fun _ => true) Sample.bob b "x2") Sample.store
  = Some (send 500 "Server Error") /\
  (pr_experience <$>
     profile_of (db_after (addExperience (fun _ => true) Sample.ann b "x2") Sample.store)
       Sample.ann)
  = Some [newExp b "x2"; Sample.job].
Proof.
  intros b.
  destruct (addExperience_contract (fun _ => true) Sample.bob b "x2" Sample.store eq_refl)
    as (Hnone & _ & _).
  destruct (addExperience_contract (fun _ => true) Sample.ann b "x2" Sample.store eq_refl)
    as (_ & _ & Hok).
  split; [apply Hnone; reflexivity|].
  destruct (Hok Sample.ann_profile) as (_ & Hp & _).
  - reflexivity.
  - reflexivity.
  - unfold profile_ids_unique. cbn. apply List.NoDup_cons; [intros []|constructor].
  - rewrite Hp. reflexivity.
Defined.

Lemma replace_doc_replace p p' ps :
  pr_id p' = pr_id p -> replace_doc p (replace_doc p' ps) = replace_doc p ps.
Proof.
  intros Hid. induction ps as [|q ps IH]; [done|]. cbn [replace_doc]. rewrite Hid.
  destruct (String.eqb_spec (pr_id q) (pr_id p)) as [Heq|Hne]; cbn [replace_doc].
  - by rewrite Hid, String.eqb_refl.
  - apply String.eqb_neq in Hne. by rewrite Hne, IH.
Qed.

(** X18: an experience entry added and then removed by its id leaves the
    store exactly as it was, provided the id of the new entry is not the
    id of an older entry. *)
Theorem addExperience_removeExperience_roundtrip schemaOk caller b fresh d p :
  experience_complete b = true ->
  schemaOk (newExp b fresh) = true ->
  profile_ids_unique d ->
  profile_of d caller = Some p ->
  ~ In fresh (List.map x_id (pr_experience p)) ->
  let d1 := db_after (addExperience schemaOk caller b fresh) d in
  response (removeExperience caller fresh) d1 = Some (json 200 (BProfile p)) /\
  db_after (removeExperience caller fresh) d1 = d.
Proof.
  intros Hb Hok Hids Hp Hfresh d1.
  set (p' := with_experience p (newExp b fresh :: pr_experience p)).
  assert (Hd1 : d1 = mkDb (users d) (replace_doc p' (profiles d)) (posts d)).
  { unfold d1, db_after. by rewrite (addExperience_run_valid _ _ _ _ _ Hb), Hp, Hok. }
  assert (Hp1 : profile_of d1 caller = Some p').
  { rewrite Hd1. by apply (find_replace_doc _ _ p). }
  assert (Hback : without_experience fresh p' = p).
  { unfold without_experience, p'. cbn. rewrite String.eqb_refl. cbn.
    rewrite filter_all; [by destruct p|]. intros e He.
    apply negb_true_iff, String.eqb_neq. intros Heq. apply Hfresh. rewrite <- Heq.
    by apply in_map. }
  unfold response, db_after. rewrite (removeExperience_run _ _ _ _ Hp1), Hback.
  cbn [fst db sent]. split; [done|]. rewrite Hd1. cbn.
  rewrite replace_doc_replace by done. rewrite replace_doc_same; [apply db_eta|done|].
  by apply find_user_In in Hp as [? _].
Qed.

Lemma addExperience_removeExperience_roundtrip_witness :
  let b := mkExperienceBody (Some "Dev") (Some "Acme") None (Some "2020-01-01") None None None in
  db_after (removeExperience Sample.ann "x2")
    (db_after (addExperience (fun _ => true) Sample.ann b "x2") Sample.store)
  = Sample.store.
Proof.
  intros b.
  apply (addExperience_removeExperience_roundtrip (fun _ => true) Sample.ann b "x2"
           Sample.store Sample.ann_profile).
  - reflexivity.
  - reflexivity.
  - unfold profile_ids_unique. cbn. apply List.NoDup_cons; [intros []|constructor].
  - reflexivity.
  - intros [H|[]]. discriminate H.
Defined.

(** ** addEducation, removeEducation *)

Lemma removeEducation_run caller eduId d p :
  profile_of d caller = Some p ->
  run (removeEducation caller eduId) d
  = (mkWorld
       (mkDb (users d) (replace_doc (without_education eduId p) (profiles d)) (posts d))
       (Some (json 200 (BProfile (without_education eduId p)))) []
       [QProfileFindOne caller; QProfileSave (pr_id p)],
     inr tt).
Proof.
  intros Hfind. unfold profile_of in Hfind.
  unfold removeEducation; unfold_handler. by rewrite Hfind.
Qed.

Lemma with_education_same p : with_education p (pr_education p) = p.
Proof. by destruct p. Qed.

(** X19: removeEducation.  A caller without a profile is answered 500.
    For a caller with a profile the answer is 200 with the profile from
    which exactly the education entries with id [eduId] are gone, and that
    profile is stored; when no entry has the id nothing changes, and a
    second call changes nothing more. *)
Theorem removeEducation_contract caller eduId d :
  let h := removeEducation caller eduId in
  (profile_of d caller = None ->
   response h d = Some (send 500 "Server Error") /\ db_after h d = d) /\
  (forall p, profile_ids_unique d -> profile_of d caller = Some p ->
   let p' := without_education eduId p in
   response h d = Some (json 200 (BProfile p')) /\
   profile_of (db_after h d) caller = Some p' /\
   (forall e, In e (pr_education p') <-> In e (pr_education p) /\ e_id e <> eduId) /\
   pr_experience p' = pr_experience p /\
   ((forall e, In e (pr_education p) -> e_id e <> eduId) -> db_after h d = d) /\
   db_after h (db_after h d) = db_after h d).
Proof.
  cbn zeta. unfold response, db_after. split.
  - intros Hp. unfold profile_of in Hp. unfold removeEducation; unfold_handler.
    by rewrite Hp.
  - intros p Hids Hp. set (p' := without_education eduId p).
    set (d1 := mkDb (users d) (replace_doc p' (profiles d)) (posts d)).
    assert (Hp' : profile_of d1 caller = Some p') by by apply (find_replace_doc _ _ p).
    rewrite (removeEducation_run _ _ _ _ Hp). fold p' d1. cbn [fst db sent].
    do 2 (split; [done|]). split; [|split; [done|split]].
    + intros e. unfold p', without_education. cbn. rewrite List.filter_In.
      by rewrite negb_true_iff, String.eqb_neq.
    + intros Hnone.
      assert (Hsame : p' = p).
      { unfold p', without_education. rewrite filter_all; [apply with_education_same|].
        intros e He. by apply negb_true_iff, String.eqb_neq, Hnone. }
      unfold d1. rewrite Hsame. rewrite replace_doc_same; [apply db_eta|done|].
      by apply find_user_In in Hp as [? _].
    + rewrite (removeEducation_run _ _ _ _ Hp').
      assert (Hsame : without_education eduId p' = p').
      { unfold p', without_education. cbn. by rewrite filter_filter. }
      rewrite Hsame. unfold d1. cbn. by rewrite replace_doc_twice.
Qed.

Lemma removeEducation_contract_witness :
  response (removeEducation Sample.bob "e1") Sample.store = Some (send 500 "Server Error") /\
  db_after (removeEducation Sample.ann "e1") Sample.store = Sample.store.
Proof.
  destruct (removeEducation_contract Sample.bob "e1" Sample.store) as (Hnone & _).
  destruct (removeEducation_contract Sample.ann "e1" Sample.store) as (_ & Hsome).
  split.
  - apply Hnone. reflexivity.
  - destruct (Hsome Sample.ann_profile) as (_ & _ & _ & _ & Hsame & _).
    + unfold profile_ids_unique. cbn. apply List.NoDup_cons; [intros []|constructor].
    + reflexivity.
    + apply Hsame. intros e [].
Defined.

Lemma addEducation_run_valid schemaOk caller b fresh d :
  education_complete b = true ->
  run (addEducation schemaOk caller b fresh) d
  = match profile_of d caller with
    | None => (mkWorld d (Some (send 500 "Server Error")) [] [QProfileFindOne caller], inr tt)
    | Some p =>
        if schemaOk (newEdu b fresh)
        then
          let p' := with_education p (newEdu b fresh :: pr_education p) in
          (mkWorld (mkDb (users d) (replace_doc p' (profiles d)) (posts d))
             (Some (json 200 (BProfile p'))) []
             [QProfileFindOne caller; QProfileSave (pr_id p)], inr tt)
        else
          (mkWorld d (Some (send 500 "Server Error")) []
             [QProfileFindOne caller; QProfileSave (pr_id p)], inr tt)
    end.
Proof.
  intros Hb. unfold addEducation. cbn zeta. fold (education_errors b).
  rewrite (education_complete_no_errors b Hb). cbn [isEmpty negb].
  unfold profile_of, newEdu. unfold_handler.
  destruct (List.find _ (profiles d)) as [p|]; cbn; [|done].
  by destruct (schemaOk _).
Qed.

(** X20: on a body with school, degree, field of study and from, that
    the schema accepts, addEducation stores the entry in front of the
    education list and answers the profile with 200; removing the entry by
    its id then brings the store back to what it was, provided the id is
    not the id of an older entry. *)
Theorem addEducation_removeEducation_roundtrip schemaOk caller b fresh d p :
  education_complete b = true ->
  schemaOk (newEdu b fresh) = true ->
  profile_ids_unique d ->
  profile_of d caller = Some p ->
  ~ In fresh (List.map e_id (pr_education p)) ->
  let h := addEducation schemaOk caller b fresh in
  let p' := with_education p (newEdu b fresh :: pr_education p) in
  response h d = Some (json 200 (BProfile p')) /\
  profile_of (db_after h d) caller = Some p' /\
  escaped h d = None /\
  response (removeEducation caller fresh) (db_after h d) = Some (json 200 (BProfile p)) /\
  db_after (removeEducation caller fresh) (db_after h d) = d.
Proof.
  intros Hb Hok Hids Hp Hfresh h p'.
  assert (Hrun : run h d
                 = (mkWorld (mkDb (users d) (replace_doc p' (profiles d)) (posts d))
                      (Some (json 200 (BProfile p'))) []
                      [QProfileFindOne caller; QProfileSave (pr_id p)], inr tt)).
  { unfold h. by rewrite (addEducation_run_valid _ _ _ _ _ Hb), Hp, Hok. }
  set (d1 := mkDb (users d) (replace_doc p' (profiles d)) (posts d)) in *.
  assert (Hp1 : profile_of d1 caller = Some p') by by apply (find_replace_doc _ _ p).
  assert (Hback : without_education fresh p' = p).
  { unfold without_education, p'. cbn. rewrite String.eqb_refl. cbn.
    rewrite filter_all; [by destruct p|]. intros e He.
    apply negb_true_iff, String.eqb_neq. intros Heq. apply Hfresh. rewrite <- Heq.
    by apply in_map. }
  unfold response, db_after, escaped. rewrite Hrun. cbn [fst snd db sent].
  do 3 (split; [done|]).
  rewrite (removeEducation_run _ _ _ _ Hp1), Hback. cbn [fst db sent]. split; [done|].
  unfold d1. cbn. rewrite replace_doc_replace by done.
  rewrite replace_doc_same; [apply db_eta|done|].
  by apply find_user_In in Hp as [? _].
Qed.

Lemma addEducation_removeEducation_roundtrip_witness :
  let b :=
    mkEducationBody (Some "MIT") (Some "BSc") (Some "CS") (Some "2015-09-01") None None None in
  db_after (removeEducation Sample.ann "e1")
    (db_after (addEducation (fun _ => true) Sample.ann b "e1") Sample.store)
  = Sample.store.
Proof.
  intros b.
  apply (addEducation_removeEducation_roundtrip (fun _ => true) Sample.ann b "e1"
           Sample.store Sample.ann_profile).
  - reflexivity.
  - reflexivity.
  - unfold profile_ids_unique. cbn. apply List.NoDup_cons; [intros []|constructor].
  - reflexivity.
  - intros [].
Defined.

(** ** getProfileByUser, getMyProfile, deleteMyProfile *)

(** X21: GET api/profile/user/:userId answers 400 'Profile not found'
    when the parameter is not an ObjectId or no profile has that user, and
    otherwise 200 with the profile and the name and avatar of its user
    (nothing when the user document is gone); GET api/profile/me of a
    user answers the same for that user's profile, and 400 with its own
    message when there is none. *)
Theorem getProfileByUser_contract cast userId d :
  (cast userId = None ->
   response (getProfileByUser cast userId) d = Some (json 400 (BMsg "Profile not found"))) /\
  (forall u, cast userId = Some u -> profile_of d u = None ->
   response (getProfileByUser cast userId) d = Some (json 400 (BMsg "Profile not found")) /\
   response (getMyProfile u) d = Some (json 400 (BMsg "There is no profile for this user"))) /\
  (forall u p, cast userId = Some u -> profile_of d u = Some p ->
   response (getProfileByUser cast userId) d
   = Some (json 200 (BPopulated p ((fun x => (u_name x, u_avatar x)) <$> users d !! u))) /\
   response (getMyProfile u) d = response (getProfileByUser cast userId) d).
Proof.
  unfold response, profile_of. split; [|split].
  - intros Hc. unfold getProfileByUser; unfold_handler. by rewrite Hc.
  - intros u Hc Hp. unfold getProfileByUser, getMyProfile; unfold_handler.
    rewrite Hc. cbn. by rewrite Hp.
  - intros u p Hc Hp. unfold getProfileByUser, getMyProfile; unfold_handler.
    rewrite Hc. cbn. rewrite Hp. cbn.
    apply List.find_some in Hp as [_ Hu]. apply String.eqb_eq in Hu. by rewrite Hu.
Qed.

Lemma getProfileByUser_contract_witness :
  response (getProfileByUser Sample.cast "ann") Sample.store
  = Some (json 400 (BMsg "Profile not found")) /\
  response (getMyProfile Sample.bob) Sample.store
  = Some (json 400 (BMsg "There is no profile for this user")) /\
  response (getProfileByUser Sample.cast Sample.ann) Sample.store
  = Some (json 200 (BPopulated Sample.ann_profile (Some ("Ann", "a.png")))).
Proof.
  destruct (getProfileByUser_contract Sample.cast "ann" Sample.store) as (Hbad & _ & _).
  destruct (getProfileByUser_contract Sample.cast Sample.bob Sample.store) as (_ & Hnone & _).
  destruct (getProfileByUser_contract Sample.cast Sample.ann Sample.store) as (_ & _ & Hsome).
  split; [|split].
  - apply Hbad. reflexivity.
  - apply (Hnone Sample.bob); reflexivity.
  - destruct (Hsome Sample.ann Sample.ann_profile) as (Hr & _).
    + reflexivity.
    + reflexivity.
    + rewrite Hr. vm_compute. reflexivity.
Defined.

Lemma find_remove_first_other u caller ps :
  u <> caller ->
  List.find (fun q => String.eqb (pr_user q) u)
    (remove_first (fun q => String.eqb (pr_user q) caller) ps)
  = List.find (fun q => String.eqb (pr_user q) u) ps.
Proof.
  intros Hne. induction ps as [|q ps IH]; [done|]. cbn [remove_first List.find].
  destruct (String.eqb_spec (pr_user q) caller) as [Hq|Hq].
  - destruct (String.eqb_spec (pr_user q) u) as [Hu|Hu]; [|done].
    destruct Hne. by rewrite <- Hu, <- Hq.
  - cbn [List.find]. by rewrite IH.
Qed.

(** X22: deleteMyProfile touches the caller's documents only.  The
    profiles and user documents of the other users are as before, and so
    is every post of another user, with the likes and comments the caller
    left on it. *)
Theorem deleteMyProfile_spares_others caller d :
  let d' := db_after (deleteMyProfile caller) d in
  (forall u, u <> caller -> profile_of d' u = profile_of d u) /\
  (forall u, u <> caller -> users d' !! u = users d !! u) /\
  (forall id p, posts d !! id = Some p -> p_user p <> caller -> posts d' !! id = Some p).
Proof.
  cbn zeta. unfold db_after. rewrite deleteMyProfile_run. cbn [fst db]. split; [|split].
  - intros u Hne. unfold profile_of. cbn. by apply find_remove_first_other.
  - intros u Hne. cbn. by apply lookup_delete_ne.
  - intros id p Hp Hne. cbn. by apply map_lookup_filter_Some.
Qed.

Lemma deleteMyProfile_spares_others_witness :
  let d' := db_after (deleteMyProfile Sample.bob) Sample.store in
  profile_of d' Sample.ann = Some Sample.ann_profile /\
  posts d' !! Sample.post1 = Some Sample.hello.
Proof.
  destruct (deleteMyProfile_spares_others Sample.bob Sample.store) as (Hprof & _ & Hposts).
  split.
  - rewrite (Hprof Sample.ann); [reflexivity | discriminate].
  - apply Hposts; [vm_compute; reflexivity | discriminate].
Defined.

(** * Skills, once more *)

Lemma split_length sep s : length (split sep s) = S (count_occ N.eq_dec s sep).
Proof.
  induction s as [|c s IH]; [done|]. cbn [split count_occ].
  destruct (N.eqb_spec c sep) as [->|Hne].
  - destruct (N.eq_dec sep sep); [|done]. cbn [length]. by rewrite IH.
  - destruct (N.eq_dec c sep); [done|].
    destruct (split_cons sep s) as (w & ws & Hs). rewrite Hs in *. exact IH.
Qed.

Lemma trimStart_all s : forallb isWhiteSpace s = true -> trimStart s = [].
Proof.
  induction s as [|c s IH]; [done|]. cbn. intros [-> Hs]%andb_prop. by apply IH.
Qed.

Lemma trim_empty_iff w : trim w = [] <-> forallb isWhiteSpace w = true.
Proof.
  split.
  - intros Ht. destruct (trim_spec w) as (l & r & Hw & Hl & Hr & _).
    rewrite Ht in Hw. rewrite Hw. cbn. rewrite forallb_app. by rewrite Hl, Hr.
  - intros Hw. unfold trim. by rewrite (trimStart_all w Hw).
Qed.

(** X23: a skills string gives one skill per comma plus one, in order;
    nothing is dropped.  A piece made of white space only (as between two
    commas or after a trailing comma) becomes an empty skill, and only
    such a piece does. *)
Theorem skills_one_per_piece s :
  length (normalizeSkills (SkillsString s)) = S (count_occ N.eq_dec s comma) /\
  (forall skill, In skill (normalizeSkills (SkillsString s)) ->
                 skill = [] \/ (starts_clean skill /\ ends_clean skill /\ skill <> [])) /\
  (In [] (normalizeSkills (SkillsString s)) <->
   exists piece, In piece (split comma s) /\ forallb isWhiteSpace piece = true).
Proof.
  cbn [normalizeSkills]. split; [|split].
  - rewrite length_map. apply split_length.
  - intros skill (w & <- & _)%in_map_iff. destruct (trim w) as [|c t] eqn:Ht; [by left|].
    right. destruct (trim_spec w) as (_ & _ & _ & _ & _ & Hs & He). rewrite Ht in *.
    done.
  - rewrite in_map_iff. split.
    + intros (w & Ht & Hin). exists w. split; [done|]. by apply trim_empty_iff.
    + intros (w & Hin & Hw). exists w. split; [|done]. by apply trim_empty_iff.
Qed.

Lemma starts_clean_trimStart t : starts_clean t -> trimStart t = t.
Proof. destruct t as [|c t]; [done|]. cbn. by intros ->. Qed.

Lemma ends_clean_trimEnd t : ends_clean t -> trimEnd t = t.
Proof.
  unfold ends_clean, trimEnd. intros Hc. rewrite starts_clean_trimStart by done.
  apply rev_involutive.
Qed.

Lemma trim_trim w : trim (trim w) = trim w.
Proof.
  destruct (trim_spec w) as (_ & _ & _ & _ & _ & Hs & He).
  unfold trim at 1. rewrite starts_clean_trimStart by done. by apply ends_clean_trimEnd.
Qed.

Lemma trim_incl w c : In c (trim w) -> In c w.
Proof.
  intros Hin. destruct (trim_spec w) as (l & r & Hw & _). rewrite Hw.
  apply in_or_app. right. apply in_or_app. by left.
Qed.

Lemma split_without_sep sep w : ~ In sep w -> split sep w = [w].
Proof.
  induction w as [|c w IH]; [done|]. cbn [split In]. intros Hn.
  destruct (N.eqb_spec c sep) as [Heq|Hne]; [destruct Hn; by left|].
  rewrite IH; [done|]. intros Hin. apply Hn. by right.
Qed.

Lemma split_app_sep sep w rest :
  ~ In sep w -> split sep (w ++ sep :: rest) = w :: split sep rest.
Proof.
  induction w as [|c w IH]; cbn [app split In].
  - intros _. by rewrite N.eqb_refl.
  - intros Hn. destruct (N.eqb_spec c sep) as [Heq|Hne]; [destruct Hn; by left|].
    rewrite IH; [done|]. intros Hin. apply Hn. by right.
Qed.

(** Joining and splitting again gives the pieces back. *)
Lemma split_join sep pieces :
  pieces <> [] -> Forall (fun w => ~ In sep w) pieces -> split sep (join sep pieces) = pieces.
Proof.
  induction pieces as [|w ws IH]; [done|]. intros _ [Hw Hws]%Forall_cons.
  destruct ws as [|w' ws]; [by apply split_without_sep|].
  change (join sep (w :: w' :: ws)) with (w ++ sep :: join sep (w' :: ws)).
  rewrite split_app_sep by done. by rewrite IH.
Qed.

(** X24: the stored skills are stable.  Sending them back joined by
    commas, as a profile form does, stores the same skills again. *)
Theorem skills_resubmission_stable s :
  let stored := normalizeSkills (SkillsString s) in
  normalizeSkills (SkillsString (join comma stored)) = stored /\
  normalizeSkills (SkillsArray stored) = stored.
Proof.
  cbn zeta. split; [|done]. cbn [normalizeSkills]. rewrite split_join.
  - rewrite List.map_map. apply List.map_ext. intros w. apply trim_trim.
  - destruct (split_cons comma s) as (w & ws & ->). done.
  - apply Forall_forall. intros t (w & <- & Hw)%list_elem_of_In%in_map_iff Hin.
    apply trim_incl in Hin. pose proof (split_no_sep comma s) as Hall.
    rewrite Forall_forall in Hall. by apply (Hall w); [apply list_elem_of_In|].
Qed.

(** * getGithubRepos, once more *)

(** X25: getGithubRepos never makes more than one upstream call, and
    makes none exactly when the user name holds an unpaired surrogate or
    no token is configured; it then answers the same 404 as for a failed
    call.  It never touches the store. *)
Theorem getGithubRepos_calls_at_most_once token upstream username d :
  let h := getGithubRepos token upstream username in
  length (requests h d) <= 1 /\
  (requests h d = [] <-> encodeURI username = None \/ token = None) /\
  (requests h d = [] -> response h d = Some (send 404 "No Github profile is found")) /\
  db_after h d = d.
Proof.
  cbn zeta.
  destruct (encodeURI username) as [u|] eqn:Hu; [destruct token as [t|]|].
  - unfold requests, response, db_after.
    rewrite (getGithubRepos_run _ _ _ _ _ _ Hu eq_refl).
    destruct (upstream (github_request u t)); cbn [fst db sent outbound length];
      (split; [lia|]); (split; [|done]); split; try done; by intros [|].
  - destruct (getGithubRepos_no_call None upstream username d (or_intror eq_refl))
      as [Hreq Hresp].
    rewrite Hreq. cbn [length]. split; [lia|]. split; [by split; [right|]|].
    split; [done|]. unfold db_after, getGithubRepos. rewrite encodeURI_github, Hu.
    reflexivity.
  - destruct (getGithubRepos_no_call token upstream username d (or_introl Hu))
      as [Hreq Hresp].
    rewrite Hreq. cbn [length]. split; [lia|]. split; [by split; [left|]|].
    split; [done|]. unfold db_after, getGithubRepos. rewrite encodeURI_github, Hu.
    reflexivity.
Qed.

(** * The client's action creators *)

(** X26: when the server rejects a registration with validation errors,
    [register] dispatches one danger alert per error, in the order of the
    errors, and then REGISTER_FAIL, once and last; it never dispatches
    REGISTER_SUCCESS on a rejection. *)
Theorem register_rejected response :
  er_data response <> DataNull ->
  let errors := match er_data response with DataErrors l => l | _ => [] end in
  let dispatched := fst (register (Rejected (Some response))) in
  List.filter is_alert dispatched = List.map (fun msg => SetAlert msg "danger") errors /\
  List.filter (fun a => negb (is_alert a)) dispatched = [REGISTER_FAIL] /\
  List.last dispatched AUTH_ERROR = REGISTER_FAIL /\
  (forall payload, ~ In (REGISTER_SUCCESS payload) dispatched) /\
  snd (register (Rejected (Some response))) = None.
Proof.
  intros Hdata. cbn [register]. destruct (er_data response) as [| |l]; [done| |].
  - cbn. repeat split; try done. intros payload [H|[]]. discriminate H.
  - cbn [fst snd]. rewrite !List.filter_app. cbn [List.filter is_alert negb app].
    assert (Ha : forall l : list string,
               List.filter is_alert (List.map (fun msg => SetAlert msg "danger") l)
               = List.map (fun msg => SetAlert msg "danger") l).
    { intros l'. induction l' as [|m l' IH]; [done|]. cbn. by rewrite IH. }
    assert (Hn : forall l : list string,
               List.filter (fun a => negb (is_alert a))
                 (List.map (fun msg => SetAlert msg "danger") l) = []).
    { intros l'. induction l' as [|m l' IH]; [done|]. cbn. by rewrite IH. }
    rewrite Ha, Hn, app_nil_r. repeat split; try done.
    + by rewrite List.last_last.
    + intros payload [(m & Hm & _)%in_map_iff|[H|[]]]%in_app_or; discriminate.
Qed.

Lemma register_rejected_witness :
  fst (register (Rejected (Some (mkErrorResponse 400 "Bad Request"
                                   (DataErrors ["Name is required"; "Email is invalid"])))))
  = [SetAlert "Name is required" "danger"; SetAlert "Email is invalid" "danger";
     REGISTER_FAIL].
Proof.
  destruct (register_rejected (mkErrorResponse 400 "Bad Request"
                                 (DataErrors ["Name is required"; "Email is invalid"])))
    as (Halerts & Hfail & _).
  - discriminate.
  - reflexivity.
Defined.

(** X27: a request that fails without a response (the server cannot be
    reached).  [loadUser] dispatches AUTH_ERROR; [getCurrentProfile] and
    [register] read [err.response] in their [catch] block, so they throw
    there and dispatch nothing, neither PROFILE_ERROR nor
    REGISTER_FAIL.  With a response, each of the three dispatches its one
    closing action. *)
Theorem client_without_response :
  loadUser (Rejected None) = ([AUTH_ERROR], None) /\
  getCurrentProfile (Rejected None) = ([], Some TypeError) /\
  register (Rejected None) = ([], Some TypeError) /\
  (forall r, snd (loadUser r) = None /\ length (fst (loadUser r)) = 1) /\
  (forall r, r <> Rejected None ->
             snd (getCurrentProfile r) = None /\ length (fst (getCurrentProfile r)) = 1).
Proof.
  repeat split; try done.
  - by destruct r.
  - by destruct r.
  - destruct r as [data|[resp|]]; done.
  - destruct r as [data|[resp|]]; done.
Qed.
